(** * AuditFlow: the read-only query layer and the variance engine

    A shallow embedding of [src/database/queries.py], with the parts of
    [src/database/schema.py] and [src/main.py] that the total tool needs,
    and the properties of the variance analysis, the reconciliation check
    and the argument validation that the specification states.

    Modelling choices:
    - Python's [float] is IEEE 754 binary64; it is [spec_float] with
      [prec = 53] and [emax = 1024], so every arithmetic step rounds as
      the interpreter does, and NaN and the infinities behave as there.
    - A cell of a nullable column is a double or [None]; arithmetic on
      [None] raises [TypeError].
    - The store is external: it is a record of the answers it gives to
      the statements of the query layer. A session carries the store and
      the list of the statements executed so far.
    - Exceptions and the session are threaded by a state and error monad.
    - The name set is iterated in an unspecified order: the analysis
      takes the enumeration as a parameter, and the properties hold for
      every enumeration that is a permutation of the set. *)

From Stdlib Require Import ZArith QArith Qabs Bool List.
From Stdlib Require Import Floats.SpecFloat.
From stdpp Require Import gmap strings list fin_maps.

Local Open Scope Z_scope.
#[local] Set Warnings "-clear-no-such-hyp".

(** ** Binary64 arithmetic *)

Module Float.

Definition prec : Z := 53.
Definition emax : Z := 1024.

Definition float : Type := spec_float.

Definition sub : float -> float -> float := SFsub prec emax.
Definition mul : float -> float -> float := SFmul prec emax.
Definition div : float -> float -> float := SFdiv prec emax.
Definition abs : float -> float := SFabs.

(** Python's comparison operators on floats: every comparison with a NaN
    is false, except [!=], which is true. *)
Definition eqb : float -> float -> bool := SFeqb.
Definition neb (x y : float) : bool := negb (SFeqb x y).
Definition ltb : float -> float -> bool := SFltb.
Definition leb : float -> float -> bool := SFleb.
Definition geb (x y : float) : bool := SFleb y x.

Definition is_nan (x : float) : bool :=
  match x with S754_nan => true | _ => false end.

Definition is_finite (x : float) : bool :=
  match x with S754_zero _ | S754_finite _ _ _ => true | _ => false end.

(** The double nearest to the integer [n]. *)
Definition of_Z (n : Z) : float := binary_normalize prec emax n 0 false.

(** The double nearest to [n / d], for [d > 0]: what the interpreter's
    correctly rounded [strtod] yields for the decimal literal. *)
Definition of_ratio (s : bool) (n d : positive) : float :=
  let '(mz, ez, lz) := SFdiv_core_binary prec emax (Zpos n) 0 (Zpos d) 0 in
  binary_round_aux prec emax s mz ez lz.

(** Round half to even of the non-negative rational [a / b]. *)
Definition rnd_half_even (a b : Z) : Z :=
  let '(q, r) := Z.div_eucl a b in
  match Z.compare (2 * r) b with
  | Lt => q
  | Gt => q + 1
  | Eq => if Z.even q then q else q + 1
  end.

(** [round(x, 2)]: the exact binary value of [x] is rounded half to even
    to two decimal places, and the double nearest to that decimal is
    returned. NaNs, infinities and integral values round to themselves;
    the sign is kept, also when the result is zero. *)
Definition round2 (x : float) : float :=
  match x with
  | S754_finite s m e =>
      if 0 <=? e then x
      else
        match rnd_half_even (Zpos m * 100) (2 ^ (- e)) with
        | Zpos n => of_ratio s n 100
        | _ => S754_zero s
        end
  | _ => x
  end.

Definition zero : float := S754_zero false.
Definition c100 : float := Eval vm_compute in of_Z 100.
Definition c5 : float := Eval vm_compute in of_Z 5.
Definition c0_01 : float := Eval vm_compute in of_ratio false 1 100.

End Float.

Import Float.

(** ** Python values, exceptions and the session monad *)

(** A cell of a nullable [Float] column, or the result of [SUM]: a double
    or [None]. *)
Inductive PyVal : Type :=
| PyNone
| PyFloat (f : float).

Inductive exn : Type :=
| ValueError (msg : string)
| TypeError
| AttributeError
| ZeroDivisionError
| ValidationError.

Inductive result (A : Type) : Type :=
| Ok (a : A)
| Raise (e : exn).
Arguments Ok {A} a.
Arguments Raise {A} e.

#[global] Instance result_ret : MRet result := fun A a => Ok a.
#[global] Instance result_bind : MBind result := fun A B k r =>
  match r with
  | Ok a => k a
  | Raise e => Raise e
  end.

#[global] Instance result_fmap : FMap result := fun A B f r =>
  match r with
  | Ok a => Ok (f a)
  | Raise e => Raise e
  end.

Definition is_ok {A : Type} (r : result A) : bool :=
  match r with Ok _ => true | Raise _ => false end.

(** [v != 0]: [None] differs from every number. *)
Definition py_ne_zero (v : PyVal) : bool :=
  match v with
  | PyNone => true
  | PyFloat f => neb f zero
  end.

(** [a - b]: a [TypeError] when an operand is [None]. *)
Definition py_sub (a b : PyVal) : result float :=
  match a, b with
  | PyFloat x, PyFloat y => Ok (sub x y)
  | _, _ => Raise TypeError
  end.

(** [x / d] for a double [x]. *)
Definition py_div (x : float) (d : PyVal) : result float :=
  match d with
  | PyNone => Raise TypeError
  | PyFloat y => if eqb y zero then Raise ZeroDivisionError else Ok (div x y)
  end.

(** [v or 0.0]: [None] and both zeros are falsy, a NaN is truthy. *)
Definition py_or_zero (v : PyVal) : float :=
  match v with
  | PyNone => zero
  | PyFloat f => if neb f zero then f else zero
  end.

(** *** The store and the session *)

Inductive Model : Type :=
| TrailBalanceCurrentYear
| TrailBalancePreviousYear.

Inductive Column : Type :=
| Col_id | Col_gl_account | Col_account_name | Col_debit | Col_credit | Col_balance.

Inductive Stmt : Type :=
| SelectSum (m : Model) (c : Column)
| SelectDistinct (m : Model) (cs : list Column).

(** What the external store answers to each statement the query layer
    issues. The store is read-only: a session never changes it. *)
Record Store : Type := {
  sum_of : Model -> Column -> PyVal;
  distinct_names : Model -> list string;
  distinct_gl_accounts : Model -> list string;
  distinct_name_balance : Model -> list (string * PyVal)
}.

(** A session: the store it reads and the statements executed so far. *)
Record AsyncSession : Type := {
  store : Store;
  executed : list Stmt
}.

Definition M (A : Type) : Type := AsyncSession -> result A * AsyncSession.

#[global] Instance M_ret : MRet M := fun A a db => (Ok a, db).
#[global] Instance M_bind : MBind M := fun A B k c db =>
  match c db with
  | (Ok a, db') => k a db'
  | (Raise e, db') => (Raise e, db')
  end.

Definition raise {A : Type} (e : exn) : M A := fun db => (Raise e, db).

Definition lift {A : Type} (r : result A) : M A := fun db => (r, db).

Definition log (s : Stmt) (db : AsyncSession) : AsyncSession :=
  {| store := store db; executed := executed db ++ [s] |}.

(** [(await db.execute(select(func.sum(col)))).scalar_one_or_none()] *)
Definition execute_sum (m : Model) (c : Column) : M PyVal :=
  fun db => (Ok (sum_of (store db) m c), log (SelectSum m c) db).

(** [(await db.execute(select(col).distinct())).all()] *)
Definition execute_distinct_names (m : Model) : M (list string) :=
  fun db => (Ok (distinct_names (store db) m), log (SelectDistinct m [Col_account_name]) db).

Definition execute_distinct_gl (m : Model) : M (list string) :=
  fun db => (Ok (distinct_gl_accounts (store db) m), log (SelectDistinct m [Col_gl_account]) db).

(** [(await db.execute(select(account_name, balance).distinct())).fetchall()] *)
Definition execute_name_balance (m : Model) : M (list (string * PyVal)) :=
  fun db =>
    (Ok (distinct_name_balance (store db) m),
     log (SelectDistinct m [Col_account_name; Col_balance]) db).

(** A fresh session on a store, as [get_db_session] opens one per call. *)
Definition get_db_session (st : Store) : AsyncSession :=
  {| store := st; executed := [] |}.

(** ** [database/queries.py] *)

Definition get_model_by_name (table_name : string) : result Model :=
  if String.eqb table_name "current_year" then Ok TrailBalanceCurrentYear
  else if String.eqb table_name "previous_year" then Ok TrailBalancePreviousYear
  else Raise (ValueError ("Unknown table: " +:+ table_name)).

(** [getattr(model_class, column)] for the three summable columns; the
    caller has checked [column] against the same list. *)
Definition getattr (model_class : Model) (column : string) : result Column :=
  if String.eqb column "debit" then Ok Col_debit
  else if String.eqb column "credit" then Ok Col_credit
  else if String.eqb column "balance" then Ok Col_balance
  else Raise AttributeError.

Definition valid_columns : list string := ["debit"; "credit"; "balance"].
Definition valid_tables : list string := ["current_year"; "previous_year"].

Definition get_total (table_name column : string) : M float :=
  if negb (bool_decide (column ∈ valid_columns)) then
    raise (ValueError ("Invalid column: " +:+
                       (column +:+ ". Must be one of 'debit', 'credit', 'balance'")))
  else
    model_class ← lift (get_model_by_name table_name);
    col_attr ← lift (getattr model_class column);
    total ← execute_sum model_class col_attr;
    mret (match total with PyFloat f => f | PyNone => zero end).

Definition get_account_names (table_name : string) : M (list string) :=
  model_class ← lift (get_model_by_name table_name);
  execute_distinct_names model_class.

Definition get_gl_accounts (table_name : string) : M (list string) :=
  model_class ← lift (get_model_by_name table_name);
  execute_distinct_gl model_class.

Record TotalMatch : Type := {
  debit_total : float;
  credit_total : float;
  is_balanced : bool
}.

Definition check_total_match (table_name : string) : M TotalMatch :=
  model_class ← lift (get_model_by_name table_name);
  debit_result ← execute_sum model_class Col_debit;
  credit_result ← execute_sum model_class Col_credit;
  let debit_total := py_or_zero debit_result in
  let credit_total := py_or_zero credit_result in
  let is_balanced := ltb (abs (sub debit_total credit_total)) c0_01 in
  mret {| debit_total := debit_total;
          credit_total := credit_total;
          is_balanced := is_balanced |}.

(** *** The variance engine *)

Record VarianceRecord : Type := {
  account_name : string;
  current_balance : PyVal;
  previous_balance : PyVal;
  variance_amount : float;
  variance_percentage : float;
  exceeds_threshold : bool
}.

Record VarianceReport : Type := {
  total_accounts : nat;
  variance_count : nat;
  threshold_used : float;
  variances_exceeding_threshold : list VarianceRecord
}.

(** [{row.account_name: row.balance for row in rows}]: a later row
    overwrites an earlier one with the same name. *)
Definition dict_of_rows (rows : list (string * PyVal)) : gmap string PyVal :=
  foldl (fun d row => <[row.1 := row.2]> d) ∅ rows.

(** [d.get(k, 0.0)] *)
Definition dict_get (d : gmap string PyVal) (k : string) : PyVal :=
  default (PyFloat zero) (d !! k).

(** Lines 160-163: the percentage of one account. *)
Definition percentage_of (current_balance previous_balance : PyVal) : result float :=
  if py_ne_zero previous_balance then
    d ← py_sub current_balance previous_balance;
    q ← py_div d previous_balance;
    mret (round2 (mul (abs q) c100))
  else
    mret (if py_ne_zero current_balance then c100 else zero).

(** One turn of the loop of lines 155-173: the records so far, extended
    by the record of [account_name] when its percentage is not zero. *)
Definition variance_step (current_accounts previous_accounts : gmap string PyVal)
    (threshold : float) (variance_results : list VarianceRecord)
    (account_name : string) : result (list VarianceRecord) :=
  let current_balance := dict_get current_accounts account_name in
  let previous_balance := dict_get previous_accounts account_name in
  variance_percentage ← percentage_of current_balance previous_balance;
  if neb variance_percentage zero then
    variance_amount ← py_sub current_balance previous_balance;
    mret (variance_results ++
          [{| account_name := account_name;
              current_balance := current_balance;
              previous_balance := previous_balance;
              variance_amount := variance_amount;
              variance_percentage := variance_percentage;
              exceeds_threshold := geb variance_percentage threshold |}])
  else
    mret variance_results.

Fixpoint variance_loop (current_accounts previous_accounts : gmap string PyVal)
    (threshold : float) (names : list string)
    (variance_results : list VarianceRecord) : result (list VarianceRecord) :=
  match names with
  | [] => Ok variance_results
  | account_name :: rest =>
      acc ← variance_step current_accounts previous_accounts threshold
              variance_results account_name;
      variance_loop current_accounts previous_accounts threshold rest acc
  end.

(** [threshold: float = 5.0] *)
Definition default_threshold : float := c5.

Section VarianceAnalysis.

(** A Python [set] is iterated in an order the hash seed decides. The
    engine is stated for any enumeration of the set. *)
Variable iteration_order : gset string -> list string.

Definition all_account_names (current_accounts previous_accounts : gmap string PyVal)
  : gset string :=
  dom current_accounts ∪ dom previous_accounts.

(** The list [variance_results] when the loop of lines 155-173 ends. *)
Definition variance_results_of (current_accounts previous_accounts : gmap string PyVal)
    (threshold : float) : result (list VarianceRecord) :=
  variance_loop current_accounts previous_accounts threshold
    (iteration_order (all_account_names current_accounts previous_accounts)) [].

Definition get_variance_analysis (threshold : float) : M VarianceReport :=
  current_rows ← execute_name_balance TrailBalanceCurrentYear;
  previous_rows ← execute_name_balance TrailBalancePreviousYear;
  let current_accounts := dict_of_rows current_rows in
  let previous_accounts := dict_of_rows previous_rows in
  variance_results ← lift (variance_results_of current_accounts previous_accounts threshold);
  let significant_variances := filter (fun v => exceeds_threshold v = true) variance_results in
  mret {| total_accounts := size (all_account_names current_accounts previous_accounts);
          variance_count := length significant_variances;
          threshold_used := threshold;
          variances_exceeding_threshold := significant_variances |}.

End VarianceAnalysis.

(** ** [database/schema.py] and [main.py]: the total tool *)

Record TotalResponse : Type := {
  table_name : string;
  column : string;
  total : float
}.

(** The constructor of the response model validates its fields: the two
    literals, and [total >= 0]. *)
Definition TotalResponse_new (table_name column : string) (total_value : float)
  : result TotalResponse :=
  if bool_decide (table_name ∈ valid_tables) && bool_decide (column ∈ valid_columns)
     && geb total_value zero
  then Ok {| table_name := table_name; column := column; total := total_value |}
  else Raise ValidationError.

Definition totalTool (st : Store) (table_name column : string) : result TotalResponse :=
  match get_total table_name column (get_db_session st) with
  | (Ok total_value, _) => TotalResponse_new table_name column total_value
  | (Raise e, _) => Raise e
  end.

(** ** [database/schema.py] and [main.py]: the other tools *)

(** The other response models. Their fields carry the names of the
    source; the module keeps them apart from the dictionaries of the
    query layer, which use the same keys. *)
Module Schema.

Record AccountNamesResponse : Type := {
  account_names : list string;
  names_table_name : string
}.

Record GlAccountsResponse : Type := {
  gl_accounts : list string;
  gl_table_name : string
}.


Record VarianceAnalysisItem : Type := {
  account_name : string;
  current_balance : float;
  previous_balance : float;
  variance_amount : float;
  variance_percentage : float;
  exceeds_threshold : bool
}.

Record VarianceAnalysisResponse : Type := {
  total_accounts : nat;
  variance_count : nat;
  threshold_used : float;
  variances_exceeding_threshold : list VarianceAnalysisItem
}.

End Schema.

(** The constructors validate the [Literal] table name; the other fields
    are plain [float], [bool], [int] and [List[str]] without constraints. *)
Definition AccountNamesResponse_new (names : list string) (table_name : string)
  : result Schema.AccountNamesResponse :=
  if bool_decide (table_name ∈ valid_tables)
  then Ok {| Schema.account_names := names; Schema.names_table_name := table_name |}
  else Raise ValidationError.

Definition GlAccountsResponse_new (gl : list string) (table_name : string)
  : result Schema.GlAccountsResponse :=
  if bool_decide (table_name ∈ valid_tables)
  then Ok {| Schema.gl_accounts := gl; Schema.gl_table_name := table_name |}
  else Raise ValidationError.


(** A dictionary of the variance list is validated into an item: the two
    balances must be numbers. *)
Definition VarianceAnalysisItem_validate (v : VarianceRecord)
  : result Schema.VarianceAnalysisItem :=
  match current_balance v, previous_balance v with
  | PyFloat c, PyFloat p =>
      Ok {| Schema.account_name := account_name v;
            Schema.current_balance := c;
            Schema.previous_balance := p;
            Schema.variance_amount := variance_amount v;
            Schema.variance_percentage := variance_percentage v;
            Schema.exceeds_threshold := exceeds_threshold v |}
  | _, _ => Raise ValidationError
  end.

Definition VarianceAnalysisResponse_new (report : VarianceReport)
  : result Schema.VarianceAnalysisResponse :=
  items ← mapM VarianceAnalysisItem_validate (variances_exceeding_threshold report);
  mret {| Schema.total_accounts := total_accounts report;
          Schema.variance_count := variance_count report;
          Schema.threshold_used := threshold_used report;
          Schema.variances_exceeding_threshold := items |}.

Definition accountNameTool (st : Store) (table_name : string)
  : result Schema.AccountNamesResponse :=
  match get_account_names table_name (get_db_session st) with
  | (Ok account_names, _) => AccountNamesResponse_new account_names table_name
  | (Raise e, _) => Raise e
  end.

Definition glAccountTool (st : Store) (table_name : string)
  : result Schema.GlAccountsResponse :=
  match get_gl_accounts table_name (get_db_session st) with
  | (Ok gl_accounts, _) => GlAccountsResponse_new gl_accounts table_name
  | (Raise e, _) => Raise e
  end.


Definition varianceAnalysisTool (iteration_order : gset string -> list string)
    (st : Store) (threshold : float) : result Schema.VarianceAnalysisResponse :=
  match get_variance_analysis iteration_order threshold (get_db_session st) with
  | (Ok r, _) => VarianceAnalysisResponse_new r
  | (Raise e, _) => Raise e
  end.

(** ** [voice/audio.py] *)

(** The uploaded file: its name, if any, and what [await file.read()]
    gives. *)
Record UploadFile : Type := {
  filename : option string;
  read : result (list Byte.byte)
}.

(** One request to the transcription service. *)
Record TranscriptionRequest : Type := {
  req_model : string;
  req_file_name : string;
  req_file : list Byte.byte;
  req_response_format : string
}.

(** The external service: the text it returns, or the exception it
    raises, for each request. *)
Definition Groq : Type := TranscriptionRequest -> result string.

Inductive HTTPResult : Type :=
| JSONResponse (transcription : string)
| HTTPException (status_code : nat) (detail : string).

Definition dquote : string := String (Ascii.ascii_of_nat 34) EmptyString.

Definition no_file_detail : string :=
  "No file part in the request or the field name is incorrect. The field name must be "
  +:+ (dquote +:+ ("file" +:+ (dquote +:+ "."))).

Definition transcription_error_detail : string :=
  "An error occurred during transcription".

(** [file.filename or "audio.m4a"] *)
Definition audio_file_name (file : UploadFile) : string :=
  match filename file with
  | Some n => if String.eqb n "" then "audio.m4a" else n
  | None => "audio.m4a"
  end.

(** The endpoint: the response, and the requests sent to the service. *)
Definition transcribe_audio (client : Groq) (file : option UploadFile)
  : HTTPResult * list TranscriptionRequest :=
  match file with
  | None => (HTTPException 400 no_file_detail, [])
  | Some file =>
      match read file with
      | Raise _ => (HTTPException 500 transcription_error_detail, [])
      | Ok file_content =>
          let request := {| req_model := "whisper-large-v3";
                            req_file_name := audio_file_name file;
                            req_file := file_content;
                            req_response_format := "json" |} in
          match client request with
          | Ok text => (JSONResponse text, [request])
          | Raise _ => (HTTPException 500 transcription_error_detail, [request])
          end
      end
  end.

(** * Definitions for the statements *)

(** ** The percentage and the records of one account *)

(** The percentage convention in the specification's words, for two
    doubles: [round(abs((cur - prev) / prev) * 100, 2)] when [prev != 0],
    else [100.0] when [cur != 0], else [0.0]. *)
Definition stated_percentage (cur prev : float) : float :=
  if neb prev zero then round2 (mul (abs (div (sub cur prev) prev)) c100)
  else if neb cur zero then c100
  else zero.

(** The record the loop appends for one account, if any: none when a
    balance is [None] (the loop raises) or the percentage is zero. *)
Definition record_for (current_accounts previous_accounts : gmap string PyVal)
    (threshold : float) (name : string) : option VarianceRecord :=
  match dict_get current_accounts name, dict_get previous_accounts name with
  | PyFloat c, PyFloat p =>
      let pct := stated_percentage c p in
      if neb pct zero then
        Some {| account_name := name;
                current_balance := PyFloat c;
                previous_balance := PyFloat p;
                variance_amount := sub c p;
                variance_percentage := pct;
                exceeds_threshold := geb pct threshold |}
      else None
  | _, _ => None
  end.

(** Both balances of the account are doubles: neither is [None]. *)
Definition has_balances (current_accounts previous_accounts : gmap string PyVal)
    (name : string) : Prop :=
  dict_get current_accounts name ≠ PyNone ∧ dict_get previous_accounts name ≠ PyNone.

#[global] Instance has_balances_dec current_accounts previous_accounts name :
  Decision (has_balances current_accounts previous_accounts name).
Proof.
  unfold has_balances.
  destruct (dict_get current_accounts name), (dict_get previous_accounts name);
    (left; split; discriminate) || (right; intros [? ?]; congruence).
Defined.

(** ** Snapshots and reports *)

(** The two dictionaries the analysis builds from a store. *)
Definition current_snapshot (st : Store) : gmap string PyVal :=
  dict_of_rows (distinct_name_balance st TrailBalanceCurrentYear).

Definition previous_snapshot (st : Store) : gmap string PyVal :=
  dict_of_rows (distinct_name_balance st TrailBalancePreviousYear).

(** The session after the two statements the analysis executes. *)
Definition analysis_log (db : AsyncSession) : AsyncSession :=
  log (SelectDistinct TrailBalancePreviousYear [Col_account_name; Col_balance])
    (log (SelectDistinct TrailBalanceCurrentYear [Col_account_name; Col_balance]) db).

(** Lines 176-183: the report built from the collected records. *)
Definition report_of (current_accounts previous_accounts : gmap string PyVal)
    (threshold : float) (variance_results : list VarianceRecord) : VarianceReport :=
  let significant_variances := filter (fun v => exceeds_threshold v = true) variance_results in
  {| total_accounts := size (all_account_names current_accounts previous_accounts);
     variance_count := length significant_variances;
     threshold_used := threshold;
     variances_exceeding_threshold := significant_variances |}.

(** ** Signs and finiteness *)

(** Not negative: a zero of either sign, a positive number, [+inf], or
    a NaN (which no comparison orders). *)
Definition nonneg_or_nan (x : float) : bool :=
  match x with
  | S754_zero _ | S754_nan => true
  | S754_infinity s | S754_finite s _ _ => negb s
  end.

Definition has_sign (s : bool) (x : float) : Prop :=
  match x with
  | S754_zero s' | S754_infinity s' | S754_finite s' _ _ => s' = s
  | S754_nan => True
  end.

Definition finite_balance (v : PyVal) : bool :=
  match v with
  | PyFloat f => is_finite f
  | PyNone => false
  end.

(** Every balance of the snapshot is a finite double. *)
Definition snapshot_finite (d : gmap string PyVal) : Prop :=
  map_Forall (fun _ v => finite_balance v = true) d.

(** ** Table names and errors *)

(** The model a valid table name selects. *)
Definition model_of (table_name : string) : Model :=
  if String.eqb table_name "current_year" then TrailBalanceCurrentYear
  else TrailBalancePreviousYear.

Definition invalid_column_error (column : string) : exn :=
  ValueError ("Invalid column: " +:+
              (column +:+ ". Must be one of 'debit', 'credit', 'balance'")).

Definition unknown_table_error (table_name : string) : exn :=
  ValueError ("Unknown table: " +:+ table_name).

(** ** Concrete stores *)

(** The worked example: current = {A:100, B:200},
    previous = {A:100, B:150, C:80}. *)
Definition example_store : Store := {|
  sum_of := fun _ _ => PyNone;
  distinct_names := fun _ => [];
  distinct_gl_accounts := fun _ => [];
  distinct_name_balance := fun m =>
    match m with
    | TrailBalanceCurrentYear =>
        [("A", PyFloat (of_Z 100)); ("B", PyFloat (of_Z 200))]
    | TrailBalancePreviousYear =>
        [("A", PyFloat (of_Z 100)); ("B", PyFloat (of_Z 150)); ("C", PyFloat (of_Z 80))]
    end
|}.

(** Account B: 200 against 150, 33.33 percent, amount 50. *)
Definition example_B : VarianceRecord := {|
  account_name := "B";
  current_balance := PyFloat (of_Z 200);
  previous_balance := PyFloat (of_Z 150);
  variance_amount := of_Z 50;
  variance_percentage := of_ratio false 3333 100;
  exceeds_threshold := true
|}.

(** Account C: absent now (0.0) against 80, 100 percent, amount -80. *)
Definition example_C : VarianceRecord := {|
  account_name := "C";
  current_balance := PyFloat zero;
  previous_balance := PyFloat (of_Z 80);
  variance_amount := of_Z (-80);
  variance_percentage := of_Z 100;
  exceeds_threshold := true
|}.

Definition example_current : gmap string PyVal := current_snapshot example_store.
Definition example_previous : gmap string PyVal := previous_snapshot example_store.

(** The records the loop collects on the example when the name set is
    iterated as [elements] lists it. *)
Definition example_emitted : list VarianceRecord :=
  Eval vm_compute in
    match variance_results_of elements example_current example_previous default_threshold with
    | Ok l => l
    | Raise _ => []
    end.

Definition example_report : VarianceReport :=
  report_of example_current example_previous default_threshold example_emitted.

(** The same example with the threshold -1.0. *)
Definition negative_threshold : float := of_Z (-1).

Definition example_emitted_negative : list VarianceRecord :=
  Eval vm_compute in
    match variance_results_of elements example_current example_previous
            negative_threshold with
    | Ok l => l
    | Raise _ => []
    end.

Definition example_report_negative : VarianceReport :=
  report_of example_current example_previous negative_threshold
    example_emitted_negative.

(** A store that answers the two sums of the reconciliation check. *)
Definition totals_store (debit_sum credit_sum : PyVal) : Store := {|
  sum_of := fun _ c =>
    match c with
    | Col_debit => debit_sum
    | Col_credit => credit_sum
    | _ => PyNone
    end;
  distinct_names := fun _ => [];
  distinct_gl_accounts := fun _ => [];
  distinct_name_balance := fun _ => []
|}.

Definition empty_store : Store := totals_store PyNone PyNone.

(** Debits of 250.00 against credits of 250.01. *)
Definition ledger_store : Store :=
  totals_store (PyFloat (of_Z 250)) (PyFloat (of_ratio false 25001 100)).

Definition ledger_response : TotalResponse :=
  {| table_name := "current_year"; column := "debit"; total := of_Z 250 |}.

(** A ledger whose balances sum to -5.0. *)
Definition negative_balance_store : Store := {|
  sum_of := fun _ c =>
    match c with
    | Col_balance => PyFloat (of_Z (-5))
    | _ => PyNone
    end;
  distinct_names := fun _ => [];
  distinct_gl_accounts := fun _ => [];
  distinct_name_balance := fun _ => []
|}.

(** A [Float] column can hold a NaN: account A is NaN now, 1.0 before. *)
Definition nan_store : Store := {|
  sum_of := fun _ _ => PyNone;
  distinct_names := fun _ => [];
  distinct_gl_accounts := fun _ => [];
  distinct_name_balance := fun m =>
    match m with
    | TrailBalanceCurrentYear => [("A", PyFloat S754_nan)]
    | TrailBalancePreviousYear => [("A", PyFloat (of_Z 1))]
    end
|}.

Definition nan_record : VarianceRecord := {|
  account_name := "A";
  current_balance := PyFloat S754_nan;
  previous_balance := PyFloat (of_Z 1);
  variance_amount := S754_nan;
  variance_percentage := S754_nan;
  exceeds_threshold := false
|}.

(** Closed decidable facts, by evaluation. *)
Ltac by_decide := apply (bool_decide_unpack _); vm_compute; exact I.

(** ** Stores for the further properties *)

(** The store whose debit and credit sums are exchanged. *)
Definition swap_totals (st : Store) : Store := {|
  sum_of := fun m c =>
    match c with
    | Col_debit => sum_of st m Col_credit
    | Col_credit => sum_of st m Col_debit
    | _ => sum_of st m c
    end;
  distinct_names := distinct_names st;
  distinct_gl_accounts := distinct_gl_accounts st;
  distinct_name_balance := distinct_name_balance st
|}.

(** What [get_total] returns for a sum: the sum, or 0.0 for [None]. *)
Definition total_or_zero (v : PyVal) : float :=
  match v with
  | PyFloat f => f
  | PyNone => zero
  end.

(** Both periods hold the same balances. *)
Definition steady_store : Store := {|
  sum_of := fun _ _ => PyNone;
  distinct_names := fun _ => ["A"; "B"];
  distinct_gl_accounts := fun _ => ["1000"; "2000"];
  distinct_name_balance := fun _ =>
    [("A", PyFloat (of_Z 100)); ("B", PyFloat (of_ratio false 25001 100))]
|}.

(** Account N is new in the current period, account D was dropped. *)
Definition turnover_store : Store := {|
  sum_of := fun _ _ => PyNone;
  distinct_names := fun _ => [];
  distinct_gl_accounts := fun _ => [];
  distinct_name_balance := fun m =>
    match m with
    | TrailBalanceCurrentYear =>
        [("A", PyFloat (of_Z 100)); ("N", PyFloat (of_Z 40))]
    | TrailBalancePreviousYear =>
        [("A", PyFloat (of_Z 100)); ("D", PyFloat (of_Z 80))]
    end
|}.

(** Account A has a NULL balance in the current period. *)
Definition null_store : Store := {|
  sum_of := fun _ _ => PyNone;
  distinct_names := fun _ => [];
  distinct_gl_accounts := fun _ => [];
  distinct_name_balance := fun m =>
    match m with
    | TrailBalanceCurrentYear => [("A", PyNone); ("B", PyFloat (of_Z 7))]
    | TrailBalancePreviousYear => [("B", PyFloat (of_Z 7))]
    end
|}.

(** Another enumeration of a name set: [elements] backwards. *)
Definition reverse_order (s : gset string) : list string := reverse (elements s).

(** An upload without a usable name, and a service that answers with
    the name of the file it was sent. *)
Definition unnamed_upload : UploadFile :=
  {| filename := Some ""; read := Ok [Byte.x01; Byte.x02] |}.

Definition echo_client : Groq := fun request => Ok (req_file_name request).

(** Debits and credits of 250.00 each. *)
Definition even_store : Store := totals_store (PyFloat (of_Z 250)) (PyFloat (of_Z 250)).

Definition even_match : TotalMatch :=
  {| debit_total := of_Z 250; credit_total := of_Z 250; is_balanced := true |}.

(** The records the loop collects on the store with a new and a dropped
    account, iterated as [elements] lists the names. *)
Definition turnover_emitted : list VarianceRecord :=
  Eval vm_compute in
    match variance_results_of elements (current_snapshot turnover_store)
            (previous_snapshot turnover_store) default_threshold with
    | Ok l => l
    | Raise _ => []
    end.

(** The report on two empty tables. *)
Definition empty_report : VarianceReport :=
  {| total_accounts := 0; variance_count := 0;
     threshold_used := default_threshold; variances_exceeding_threshold := [] |}.

(** ** Totals as decimals *)

(** The double that holds a decimal: the nearest one, as a [Float]
    column stores it and as the interpreter reads a literal. *)
Definition decimal_double (q : Q) : float :=
  match Qnum q with
  | Z0 => zero
  | Zpos n => of_ratio false n (Qden q)
  | Zneg n => of_ratio true n (Qden q)
  end.

(** The number a double stands for, exactly (0 for what is not finite). *)
Definition exact_value (f : float) : Q :=
  match f with
  | S754_finite s m e =>
      Qmult (Qmake (if s then Zneg m else Zpos m) 1) (Qpower (Qmake 2 1) e)
  | _ => Qmake 0 1
  end.

(** The balance test in the specification's words, on exact numbers:
    [|debit_total - credit_total| < 0.01]. *)
Definition stated_is_balanced (debit credit : Q) : bool :=
  negb (Qle_bool (Qmake 1 100) (Qabs (Qminus debit credit))).

(** The result of the check on debits of 250.00 and credits of 250.01. *)
Definition ledger_match : TotalMatch :=
  {| debit_total := decimal_double (Qmake 250 1);
     credit_total := decimal_double (Qmake 25001 100);
     is_balanced := true |}.

(** The response of the name listing on the store with two accounts. *)
Definition steady_names_response : Schema.AccountNamesResponse :=
  {| Schema.account_names := ["A"; "B"];
     Schema.names_table_name := "current_year" |}.

(** The response of the variance tool on the example store, with the
    names iterated as [elements] lists them. *)
Definition example_response : Schema.VarianceAnalysisResponse :=
  Eval vm_compute in
    match varianceAnalysisTool elements example_store default_threshold with
    | Ok resp => resp
    | Raise _ =>
        {| Schema.total_accounts := 0; Schema.variance_count := 0;
           Schema.threshold_used := default_threshold;
           Schema.variances_exceeding_threshold := [] |}
    end.

(** * Properties *)

(** ** The percentage as the specification words it *)

Lemma neb_eqb (x y : float) : neb x y = negb (eqb x y).
Proof. reflexivity. Qed.

Lemma percentage_of_floats (c p : float) :
  percentage_of (PyFloat c) (PyFloat p) = Ok (stated_percentage c p).
Proof.
  unfold percentage_of, stated_percentage, py_ne_zero; cbn.
  destruct (neb p zero) eqn:Hp; [|done].
  rewrite neb_eqb in Hp. apply negb_true_iff in Hp. by rewrite Hp.
Qed.

(** ** The loop over the account names *)

Section Loop.

Variables current_accounts previous_accounts : gmap string PyVal.
Variable threshold : float.

Abbreviation step := (variance_step current_accounts previous_accounts threshold).
Abbreviation loop := (variance_loop current_accounts previous_accounts threshold).
Abbreviation emit := (record_for current_accounts previous_accounts threshold).
Abbreviation balanced := (has_balances current_accounts previous_accounts).

Lemma variance_step_ok acc name :
  balanced name → step acc name = Ok (acc ++ option_list (emit name)).
Proof.
  intros [Hc Hp]. unfold variance_step, record_for.
  destruct (dict_get current_accounts name) as [|c]; [done|].
  destruct (dict_get previous_accounts name) as [|p]; [done|].
  rewrite percentage_of_floats; cbn.
  destruct (neb (stated_percentage c p) zero); cbn; [done|].
  by rewrite app_nil_r.
Qed.

Lemma variance_step_raise acc name :
  ¬ balanced name → step acc name = Raise TypeError.
Proof.
  intros Hn. unfold variance_step.
  destruct (dict_get current_accounts name) as [|c] eqn:Ec,
           (dict_get previous_accounts name) as [|p] eqn:Ep.
  - done.
  - unfold percentage_of; cbn. by destruct (neb p zero).
  - done.
  - exfalso. apply Hn. unfold has_balances. by rewrite Ec, Ep.
Qed.

Lemma variance_loop_ok names acc :
  Forall balanced names → loop names acc = Ok (acc ++ omap emit names).
Proof.
  intros H. revert acc. induction H as [|name names Hn _ IH]; intros acc; cbn.
  - by rewrite app_nil_r.
  - rewrite variance_step_ok by done. cbn. rewrite IH.
    destruct (emit name); cbn; by rewrite <- ?app_assoc, ?app_nil_r.
Qed.

Lemma variance_loop_raise names acc :
  ¬ Forall balanced names → loop names acc = Raise TypeError.
Proof.
  revert acc. induction names as [|name names IH]; intros acc Hn; cbn.
  - destruct Hn. constructor.
  - destruct (decide (balanced name)) as [Hb|Hb].
    + rewrite variance_step_ok by done. cbn. apply IH.
      intros HF. apply Hn. by constructor.
    + by rewrite variance_step_raise.
Qed.

Lemma variance_loop_inv names acc res :
  loop names acc = Ok res →
  Forall balanced names ∧ res = acc ++ omap emit names.
Proof.
  intros H. destruct (decide (Forall balanced names)) as [HF|HF].
  - split; [done|]. rewrite variance_loop_ok in H by done. congruence.
  - rewrite variance_loop_raise in H by done. discriminate.
Qed.

End Loop.

(** ** Snapshots *)

Lemma dom_foldl_insert (rows : list (string * PyVal)) (d : gmap string PyVal) :
  dom (foldl (fun d row => <[row.1 := row.2]> d) d rows) = dom d ∪ list_to_set rows.*1.
Proof.
  revert d. induction rows as [|[k v] rows IH]; intros d; cbn.
  - set_solver.
  - rewrite IH, dom_insert_L. set_solver.
Qed.

Lemma dom_dict_of_rows (rows : list (string * PyVal)) :
  dom (dict_of_rows rows) = list_to_set rows.*1.
Proof. unfold dict_of_rows. rewrite dom_foldl_insert. set_solver. Qed.

(** A later row with the same account name wins. *)
Lemma dict_of_rows_last (rows : list (string * PyVal)) (k : string) (v : PyVal) :
  dict_of_rows (rows ++ [(k, v)]) !! k = Some v.
Proof. unfold dict_of_rows. rewrite foldl_app. cbn. apply lookup_insert_eq. Qed.

Lemma dict_get_absent (d : gmap string PyVal) (k : string) :
  d !! k = None → dict_get d k = PyFloat zero.
Proof. unfold dict_get. by intros ->. Qed.

Lemma get_variance_analysis_run order (threshold : float) (db : AsyncSession) :
  get_variance_analysis order threshold db =
  (report_of (current_snapshot (store db)) (previous_snapshot (store db)) threshold
     <$> variance_results_of order (current_snapshot (store db))
           (previous_snapshot (store db)) threshold,
   analysis_log db).
Proof.
  unfold get_variance_analysis, mbind, M_bind, execute_name_balance, lift; cbn.
  fold (current_snapshot (store db)) (previous_snapshot (store db)).
  by destruct (variance_results_of _ _ _ _).
Qed.

(** ** The variance analysis, for any iteration order of the name set *)

Section Analysis.

Variable iteration_order : gset string -> list string.
Hypothesis iteration_order_perm :
  forall s : gset string, iteration_order s ≡ₚ elements s.

Abbreviation results_of := (variance_results_of iteration_order).
Abbreviation analysis := (get_variance_analysis iteration_order).

Lemma elem_of_iteration_order (s : gset string) (x : string) :
  x ∈ iteration_order s ↔ x ∈ s.
Proof. rewrite iteration_order_perm. apply elem_of_elements. Qed.

Lemma length_iteration_order (s : gset string) :
  length (iteration_order s) = size s.
Proof. by rewrite iteration_order_perm. Qed.

(** The loop completes exactly when no account of the union has a
    [None] balance, and then it has collected the records of the
    accounts in iteration order. *)
Lemma variance_results_of_inv cur prev threshold emitted :
  results_of cur prev threshold = Ok emitted →
  (∀ name, name ∈ all_account_names cur prev → has_balances cur prev name)
  ∧ emitted = omap (record_for cur prev threshold)
                (iteration_order (all_account_names cur prev)).
Proof.
  intros H. apply variance_loop_inv in H as [HF ->]. split; [|done].
  intros name Hin. rewrite Forall_forall in HF. apply HF.
  by apply elem_of_iteration_order.
Qed.

Lemma variance_results_of_ok cur prev threshold :
  (∀ name, name ∈ all_account_names cur prev → has_balances cur prev name) →
  results_of cur prev threshold =
  Ok (omap (record_for cur prev threshold)
        (iteration_order (all_account_names cur prev))).
Proof.
  intros H. unfold variance_results_of. rewrite variance_loop_ok; [done|].
  apply Forall_forall. intros name Hin. apply H.
  by apply elem_of_iteration_order.
Qed.


Lemma get_variance_analysis_ok threshold db report db' :
  analysis threshold db = (Ok report, db') →
  ∃ emitted,
    results_of (current_snapshot (store db)) (previous_snapshot (store db)) threshold
    = Ok emitted
    ∧ report = report_of (current_snapshot (store db)) (previous_snapshot (store db))
                 threshold emitted
    ∧ db' = analysis_log db.
Proof.
  rewrite get_variance_analysis_run.
  destruct (variance_results_of _ _ _ _) as [emitted|e]; cbn; [|discriminate].
  intros [= <- <-]. eauto.
Qed.


Lemma record_for_Some cur prev threshold name r :
  record_for cur prev threshold name = Some r ↔
  ∃ c p, dict_get cur name = PyFloat c ∧ dict_get prev name = PyFloat p
         ∧ neb (stated_percentage c p) zero = true
         ∧ r = {| account_name := name;
                  current_balance := PyFloat c;
                  previous_balance := PyFloat p;
                  variance_amount := sub c p;
                  variance_percentage := stated_percentage c p;
                  exceeds_threshold := geb (stated_percentage c p) threshold |}.
Proof.
  unfold record_for. split.
  - destruct (dict_get cur name) as [|c], (dict_get prev name) as [|p];
      try discriminate.
    cbn. destruct (neb _ zero) eqn:Hz; [|discriminate].
    intros [= <-]. by exists c, p.
  - intros (c & p & -> & -> & Hz & ->). cbn. by rewrite Hz.
Qed.


(** C2: in every report the analysis returns, [total_accounts] is the
    cardinality of the union of the two snapshots' name sets,
    [variances_exceeding_threshold] is the emitted records whose
    [exceeds_threshold] is true, and [variance_count] is the length of
    that list, however many records were emitted. *)
Theorem variance_report_counts threshold db report db' :
  analysis threshold db = (Ok report, db') →
  ∃ emitted,
    results_of (current_snapshot (store db)) (previous_snapshot (store db)) threshold
    = Ok emitted
    ∧ total_accounts report
      = size (dom (current_snapshot (store db)) ∪ dom (previous_snapshot (store db)))
    ∧ total_accounts report
      = size (list_to_set (distinct_name_balance (store db) TrailBalanceCurrentYear).*1
              ∪ list_to_set (distinct_name_balance (store db) TrailBalancePreviousYear).*1
              : gset string)
    ∧ variances_exceeding_threshold report
      = filter (fun v => exceeds_threshold v = true) emitted
    ∧ variance_count report = length (variances_exceeding_threshold report)
    ∧ threshold_used report = threshold.
Proof.
  intros Hrun. apply get_variance_analysis_ok in Hrun as (emitted & Hrun & -> & _).
  exists emitted. split; [done|]. cbn. unfold all_account_names.
  split; [done|]. split; [|done].
  unfold current_snapshot, previous_snapshot. by rewrite !dom_dict_of_rows.
Qed.

(** C9: in every report the analysis returns,
    [0 <= variance_count <= total_accounts], and every record of
    [variances_exceeding_threshold] has [exceeds_threshold] true, a
    percentage [>=] the threshold and a percentage that is not [0.0]. *)
Theorem variance_report_invariant threshold db report db' :
  analysis threshold db = (Ok report, db') →
  (0 ≤ variance_count report ≤ total_accounts report)%nat
  ∧ ∀ r, r ∈ variances_exceeding_threshold report →
      exceeds_threshold r = true
      ∧ geb (variance_percentage r) threshold = true
      ∧ neb (variance_percentage r) zero = true.
Proof.
  intros Hrun. apply get_variance_analysis_ok in Hrun as (emitted & Hrun & -> & _).
  apply variance_results_of_inv in Hrun as [_ ->]. cbn. split.
  - split; [lia|]. etrans; [apply length_filter|].
    rewrite <- length_iteration_order.
    generalize (iteration_order
      (all_account_names (current_snapshot (store db)) (previous_snapshot (store db)))).
    intros l. induction l as [|x l IH]; cbn; [done|].
    destruct (record_for _ _ _ x); cbn; lia.
  - intros r Hr. apply list_elem_of_filter in Hr as [Hex Hr].
    apply list_elem_of_omap in Hr as (name & _ & Hrec).
    apply record_for_Some in Hrec as (c & p & _ & _ & Hz & ->). cbn in *.
    auto.
Qed.

End Analysis.

(** ** Sign and NaN facts of the arithmetic *)

Module FloatFacts.

Lemma binary_round_aux_sign s m e l :
  has_sign s (binary_round_aux prec emax s m e l).
Proof.
  unfold binary_round_aux.
  destruct (shr_fexp prec emax m e l) as [mrs' e'].
  destruct (shr_fexp prec emax _ e' loc_Exact) as [mrs'' e''].
  destruct (shr_m mrs''); cbn; [done| |done].
  by destruct (_ <=? _).
Qed.

Lemma has_sign_nonneg x : has_sign false x → nonneg_or_nan x = true.
Proof. destruct x; cbn; by intros; subst. Qed.

Lemma of_ratio_sign s n d : has_sign s (of_ratio s n d).
Proof.
  unfold of_ratio.
  destruct (SFdiv_core_binary prec emax (Z.pos n) 0 (Z.pos d) 0) as [[mz ez] lz].
  apply binary_round_aux_sign.
Qed.

Lemma round2_nonneg x : nonneg_or_nan x = true → nonneg_or_nan (round2 x) = true.
Proof.
  destruct x as [s|s| |s m e]; cbn; try done.
  intros Hs. apply negb_true_iff in Hs as ->.
  destruct (0 <=? e); [done|].
  destruct (rnd_half_even _ _); try done.
  apply has_sign_nonneg, of_ratio_sign.
Qed.

Lemma mul_abs_c100_nonneg q : nonneg_or_nan (mul (abs q) c100) = true.
Proof.
  destruct q as [s|s| |s m e]; try done.
  apply has_sign_nonneg. unfold mul, abs, c100, SFabs, SFmul, xorb.
  apply binary_round_aux_sign.
Qed.

Lemma stated_percentage_nonneg c p : nonneg_or_nan (stated_percentage c p) = true.
Proof.
  unfold stated_percentage.
  destruct (neb p zero); [|by destruct (neb c zero)].
  apply round2_nonneg, mul_abs_c100_nonneg.
Qed.

(** A number that is not negative, not zero and not a NaN is [>=] every
    threshold that is [<= 0]. *)
Lemma geb_nonpositive x t :
  leb t zero = true → nonneg_or_nan x = true → is_nan x = false →
  neb x zero = true → geb x t = true.
Proof.
  destruct x as [sx|sx| |sx mx ex], t as [st|st| |st mt et]; cbn; try done;
    try (destruct sx; done); try (destruct st; done).
  all: destruct sx, st; done.
Qed.

(** *** Finite operands never produce a NaN *)

Lemma shr_1_nonneg mrs : 0 ≤ shr_m mrs → 0 ≤ shr_m (shr_1 mrs).
Proof.
  destruct mrs as [m r s]; cbn.
  destruct m as [|q|q]; [done| |lia]. by destruct q.
Qed.

Lemma iter_shr_1_nonneg n mrs :
  0 ≤ shr_m mrs → 0 ≤ shr_m (SpecFloat.iter_pos shr_1 n mrs).
Proof.
  revert mrs. induction n as [n IH|n IH|]; intros mrs H; cbn.
  - by apply IH, IH, shr_1_nonneg.
  - by apply IH, IH.
  - by apply shr_1_nonneg.
Qed.

Lemma shr_fexp_nonneg m e l :
  0 ≤ m → 0 ≤ shr_m (shr_fexp prec emax m e l).1.
Proof.
  intros H. unfold shr_fexp, shr.
  assert (0 ≤ shr_m (shr_record_of_loc m l)) as H0.
  { destruct l as [|[]]; done. }
  destruct (_ - e); cbn; [done| |done]. by apply iter_shr_1_nonneg.
Qed.

Lemma round_nearest_even_nonneg m l : 0 ≤ m → 0 ≤ round_nearest_even m l.
Proof.
  intros H. destruct l as [|[]]; cbn; try lia. destruct (Z.even m); lia.
Qed.

Lemma binary_round_aux_not_nan s m e l :
  0 ≤ m → is_nan (binary_round_aux prec emax s m e l) = false.
Proof.
  intros H. unfold binary_round_aux.
  pose proof (shr_fexp_nonneg m e l H) as H1.
  destruct (shr_fexp prec emax m e l) as [mrs' e']. cbn in H1.
  pose proof (shr_fexp_nonneg _ e' loc_Exact
                (round_nearest_even_nonneg _ (loc_of_shr_record mrs') H1)) as H2.
  destruct (shr_fexp prec emax _ e' loc_Exact) as [mrs'' e'']. cbn in H2.
  destruct (shr_m mrs''); [done| |lia]. by destruct (_ <=? _).
Qed.

Lemma binary_normalize_not_nan m e sz :
  is_nan (binary_normalize prec emax m e sz) = false.
Proof.
  destruct m; cbn; [done| |]; unfold binary_round;
    destruct (shl_align _ _ _); by apply binary_round_aux_not_nan.
Qed.

Lemma sub_not_nan x y :
  is_finite x = true → is_finite y = true → is_nan (sub x y) = false.
Proof.
  destruct x as [sx|sx| |sx mx ex], y as [sy|sy| |sy my ey]; try done.
  - by destruct sx, sy.
  - intros _ _. apply binary_normalize_not_nan.
Qed.

Lemma div_core_nonneg m1 e1 m2 e2 :
  0 ≤ (SFdiv_core_binary prec emax (Z.pos m1) e1 (Z.pos m2) e2).1.1.
Proof.
  unfold SFdiv_core_binary.
  set (s := _ - _ - _).
  set (m' := match s with Z.pos _ => _ | Z0 => _ | Z.neg _ => _ end).
  assert (0 ≤ m') as Hm'.
  { subst m'. destruct s; [lia| |lia]. apply Z.shiftl_nonneg. lia. }
  pose proof (Z_div_mod m' (Z.pos m2) ltac:(lia)) as Hdiv.
  destruct (Z.div_eucl m' (Z.pos m2)) as [q r]. cbn. nia.
Qed.

Lemma div_not_nan x sy my ey :
  is_nan x = false → is_nan (div x (S754_finite sy my ey)) = false.
Proof.
  destruct x as [sx|sx| |sx mx ex]; try done. intros _.
  unfold div, SFdiv.
  pose proof (div_core_nonneg mx ex my ey) as H.
  destruct (SFdiv_core_binary _ _ _ _ _ _) as [[mz ez] lz]. cbn in H.
  by apply binary_round_aux_not_nan.
Qed.

Lemma of_ratio_not_nan s n d : is_nan (of_ratio s n d) = false.
Proof.
  unfold of_ratio. pose proof (div_core_nonneg n 0 d 0) as H.
  destruct (SFdiv_core_binary _ _ _ _ _ _) as [[mz ez] lz]. cbn in H.
  by apply binary_round_aux_not_nan.
Qed.

Lemma round2_not_nan x : is_nan x = false → is_nan (round2 x) = false.
Proof.
  destruct x as [s|s| |s m e]; cbn; try done. intros _.
  destruct (0 <=? e); [done|].
  destruct (rnd_half_even _ _); try done. apply of_ratio_not_nan.
Qed.

Lemma mul_abs_c100_not_nan q :
  is_nan q = false → is_nan (mul (abs q) c100) = false.
Proof.
  destruct q as [s|s| |s m e]; try done. intros _.
  unfold mul, abs, c100, SFabs, SFmul. by apply binary_round_aux_not_nan.
Qed.

(** With two finite balances the percentage is a number. *)
Lemma stated_percentage_not_nan c p :
  is_finite c = true → is_finite p = true →
  is_nan (stated_percentage c p) = false.
Proof.
  intros Hc Hp. unfold stated_percentage.
  destruct (neb p zero) eqn:Hz; [|by destruct (neb c zero)].
  apply round2_not_nan, mul_abs_c100_not_nan.
  destruct p as [sp|sp| |sp mp ep]; try done.
  apply div_not_nan. by apply sub_not_nan.
Qed.

End FloatFacts.

(** ** Thresholds that are not positive *)

Lemma snapshot_finite_get d k :
  snapshot_finite d → ∃ f, dict_get d k = PyFloat f ∧ is_finite f = true.
Proof.
  intros H. unfold dict_get. destruct (d !! k) as [v|] eqn:E; cbn.
  - apply H in E. destruct v as [|f]; [done|]. by exists f.
  - by exists zero.
Qed.

Section Threshold.

Variable iteration_order : gset string -> list string.
Hypothesis iteration_order_perm :
  forall s : gset string, iteration_order s ≡ₚ elements s.

Abbreviation results_of := (variance_results_of iteration_order).
Abbreviation analysis := (get_variance_analysis iteration_order).

(** Whether the loop completes does not depend on the threshold. *)
Lemma variance_results_of_threshold cur prev t1 t2 :
  is_ok (results_of cur prev t1) = is_ok (results_of cur prev t2).
Proof.
  unfold variance_results_of.
  destruct (decide (Forall (has_balances cur prev)
                      (iteration_order (all_account_names cur prev)))) as [H|H].
  - by rewrite !variance_loop_ok.
  - by rewrite !variance_loop_raise.
Qed.

Lemma record_nonpositive_threshold cur prev threshold name r :
  leb threshold zero = true →
  record_for cur prev threshold name = Some r →
  is_nan (variance_percentage r) = false → exceeds_threshold r = true.
Proof.
  intros Ht Hrec Hnan.
  apply record_for_Some in Hrec as (c & p & _ & _ & Hz & ->). cbn in *.
  apply FloatFacts.geb_nonpositive; auto using FloatFacts.stated_percentage_nonneg.
Qed.

(** C10, as the code has it: no threshold is rejected (whether the
    analysis raises does not depend on the threshold), and for every
    threshold [<= 0] every emitted record whose percentage is not a NaN
    has [exceeds_threshold] true; so when no emitted percentage is a NaN,
    and in particular when all balances are finite,
    [variances_exceeding_threshold] is the whole list of emitted records,
    the accounts whose percentage is not zero. *)
Theorem nonpositive_threshold_flags_numbers db :
  (∀ t1 t2, is_ok (analysis t1 db).1 = is_ok (analysis t2 db).1)
  ∧ (∀ threshold report db',
       leb threshold zero = true →
       analysis threshold db = (Ok report, db') →
       ∃ emitted,
         results_of (current_snapshot (store db)) (previous_snapshot (store db))
           threshold = Ok emitted
         ∧ (∀ r, r ∈ emitted → is_nan (variance_percentage r) = false →
                 exceeds_threshold r = true)
         ∧ ((∀ r, r ∈ emitted → is_nan (variance_percentage r) = false) →
            variances_exceeding_threshold report = emitted)
         ∧ (snapshot_finite (current_snapshot (store db)) →
            snapshot_finite (previous_snapshot (store db)) →
            variances_exceeding_threshold report = emitted)).
Proof.
  split.
  - intros t1 t2. rewrite !get_variance_analysis_run. cbn.
    pose proof (variance_results_of_threshold (current_snapshot (store db))
                  (previous_snapshot (store db)) t1 t2) as H.
    by destruct (variance_results_of _ _ _ t1), (variance_results_of _ _ _ t2).
  - intros threshold report db' Ht Hrun.
    apply get_variance_analysis_ok in Hrun as (emitted & Hrun & -> & _).
    exists emitted. split; [done|].
    apply variance_results_of_inv in Hrun as [_ Hem]; [|done].
    assert (∀ r, r ∈ emitted → is_nan (variance_percentage r) = false →
                 exceeds_threshold r = true) as Hflag.
    { intros r Hr Hnan. rewrite Hem in Hr.
      apply list_elem_of_omap in Hr as (name & _ & Hrec).
      by eapply record_nonpositive_threshold. }
    assert ((∀ r, r ∈ emitted → is_nan (variance_percentage r) = false) →
            filter (fun v => exceeds_threshold v = true) emitted = emitted) as Hall.
    { intros Hnum. clear Hem. induction emitted as [|r l IH]; [done|].
      rewrite filter_cons_True.
      - f_equal. apply IH.
        + intros r' Hr'. apply Hflag. by right.
        + intros r' Hr'. apply Hnum. by right.
      - apply Hflag; [left|apply Hnum; left]. }
    split; [done|]. split; [done|]. cbn.
    intros Hc Hp. apply Hall. intros r Hr. rewrite Hem in Hr.
    apply list_elem_of_omap in Hr as (name & _ & Hrec).
    apply record_for_Some in Hrec as (c & p & Ec & Ep & _ & ->). cbn.
    destruct (snapshot_finite_get _ name Hc) as (c' & Ec' & Hfc).
    destruct (snapshot_finite_get _ name Hp) as (p' & Ep' & Hfp).
    apply FloatFacts.stated_percentage_not_nan; congruence.
Qed.

End Threshold.

(** ** The worked example of the specification *)

Lemma example_balances :
  set_Forall (has_balances (current_snapshot example_store)
                (previous_snapshot example_store))
    (all_account_names (current_snapshot example_store)
       (previous_snapshot example_store)).
Proof. apply (bool_decide_unpack _). by vm_compute. Qed.

Lemma example_records :
  omap (record_for (current_snapshot example_store) (previous_snapshot example_store)
          default_threshold)
    (elements (all_account_names (current_snapshot example_store)
                 (previous_snapshot example_store)))
  ≡ₚ [example_B; example_C].
Proof. vm_compute. first [reflexivity | apply perm_swap]. Qed.

(** C4: on current = {A:100, B:200}, previous = {A:100, B:150, C:80} and
    threshold 5.0 the analysis returns [total_accounts = 3] and
    [variance_count = 2]; A is omitted; B has percentage 33.33 and amount
    50; C has percentage 100.0 and amount -80; B and C are both in
    [variances_exceeding_threshold]. This holds in whatever order the
    name set is iterated. *)
Theorem variance_example (iteration_order : gset string → list string) :
  (∀ s : gset string, iteration_order s ≡ₚ elements s) →
  ∃ report db' emitted,
    get_variance_analysis iteration_order default_threshold
      (get_db_session example_store) = (Ok report, db')
    ∧ total_accounts report = 3%nat
    ∧ variance_count report = 2%nat
    ∧ variances_exceeding_threshold report ≡ₚ [example_B; example_C]
    ∧ variance_results_of iteration_order (current_snapshot example_store)
        (previous_snapshot example_store) default_threshold = Ok emitted
    ∧ emitted ≡ₚ [example_B; example_C]
    ∧ (∀ r, r ∈ emitted → account_name r ≠ "A").
Proof.
  intros Hperm.
  rewrite get_variance_analysis_run. cbn [store get_db_session].
  rewrite variance_results_of_ok by (done || apply example_balances).
  assert (omap (record_for (current_snapshot example_store)
                  (previous_snapshot example_store) default_threshold)
            (iteration_order (all_account_names (current_snapshot example_store)
                                (previous_snapshot example_store)))
          ≡ₚ [example_B; example_C]) as Hem.
  { rewrite Hperm. apply example_records. }
  eexists _, _, _. split; [reflexivity|]. cbn.
  split. { by vm_compute. }
  split. { by rewrite Hem. }
  split. { by rewrite Hem. }
  split; [reflexivity|]. split; [done|].
  intros r Hr. rewrite Hem in Hr.
  apply elem_of_cons in Hr as [->|Hr]; [done|].
  apply list_elem_of_singleton in Hr as ->. done.
Qed.

(** ** Asymmetry of the percentage *)

(** C8: the percentage is not symmetric under swapping the two periods:
    current = 110 against previous = 100 gives 10.00, current = 100
    against previous = 110 gives 9.09, and the two differ. The loop emits
    exactly these percentages for a single account. *)
Theorem variance_percentage_asymmetric :
  percentage_of (PyFloat (of_Z 110)) (PyFloat (of_Z 100)) = Ok (of_Z 10)
  ∧ percentage_of (PyFloat (of_Z 100)) (PyFloat (of_Z 110)) = Ok (of_ratio false 909 100)
  ∧ eqb (of_Z 10) (of_ratio false 909 100) = false
  ∧ fmap (M:=result) (fmap (M:=list) variance_percentage)
      (variance_loop {["X" := PyFloat (of_Z 110)]} {["X" := PyFloat (of_Z 100)]}
        default_threshold ["X"] [])
    = Ok [of_Z 10]
  ∧ fmap (M:=result) (fmap (M:=list) variance_percentage)
      (variance_loop {["X" := PyFloat (of_Z 100)]} {["X" := PyFloat (of_Z 110)]}
        default_threshold ["X"] [])
    = Ok [of_ratio false 909 100].
Proof. repeat split; by vm_compute. Qed.

(** ** Table and column names *)

Lemma get_model_by_name_valid table_name :
  table_name ∈ valid_tables → get_model_by_name table_name = Ok (model_of table_name).
Proof.
  unfold valid_tables. rewrite !elem_of_cons, elem_of_nil.
  intros [->|[->|[]]]; reflexivity.
Qed.

Lemma get_model_by_name_invalid table_name :
  table_name ∉ valid_tables →
  get_model_by_name table_name = Raise (ValueError ("Unknown table: " +:+ table_name)).
Proof.
  unfold valid_tables. rewrite !not_elem_of_cons. intros (H1 & H2 & _).
  unfold get_model_by_name.
  apply String.eqb_neq in H1, H2. by rewrite H1, H2.
Qed.

Lemma getattr_valid model_class column :
  column ∈ valid_columns → ∃ c, getattr model_class column = Ok c
                                ∧ c ∈ [Col_debit; Col_credit; Col_balance].
Proof.
  unfold valid_columns. rewrite !elem_of_cons, elem_of_nil.
  intros [->|[->|[->|[]]]]; eexists; (split; [reflexivity|]);
    rewrite !elem_of_cons; auto.
Qed.

(** ** The reconciliation check *)

(** C5, as the code has it: whenever [check_total_match] returns, the
    table name is one of the two periods, the totals are the two sums of
    the store ([None] and zero read as 0.0), and [is_balanced] is true
    exactly when [abs(debit_total - credit_total) < 0.01] as binary64
    arithmetic evaluates it on these totals. Totals 0.01 and 0 give
    false and totals 0.0099 and 0 give true; of two pairs of totals that
    are a cent apart as decimals, 250.01 and 250.00 give true, 100.01 and
    100.00 give false. *)
Theorem check_total_match_tolerance table_name db r db' :
  check_total_match table_name db = (Ok r, db') →
  table_name ∈ valid_tables
  ∧ db' = log (SelectSum (model_of table_name) Col_credit)
            (log (SelectSum (model_of table_name) Col_debit) db)
  ∧ (∀ f, sum_of (store db) (model_of table_name) Col_debit = PyFloat f →
          (neb f zero = true → debit_total r = f)
          ∧ (eqb f zero = true → debit_total r = zero))
  ∧ (sum_of (store db) (model_of table_name) Col_debit = PyNone →
     debit_total r = zero)
  ∧ (∀ f, sum_of (store db) (model_of table_name) Col_credit = PyFloat f →
          (neb f zero = true → credit_total r = f)
          ∧ (eqb f zero = true → credit_total r = zero))
  ∧ (sum_of (store db) (model_of table_name) Col_credit = PyNone →
     credit_total r = zero)
  ∧ (is_balanced r = true
     ↔ ltb (abs (sub (debit_total r) (credit_total r)))
         (decimal_double (Qmake 1 100)) = true)
  ∧ (debit_total r = decimal_double (Qmake 1 100) → credit_total r = zero →
     is_balanced r = false)
  ∧ (debit_total r = decimal_double (Qmake 99 10000) → credit_total r = zero →
     is_balanced r = true)
  ∧ (debit_total r = decimal_double (Qmake 25001 100) →
     credit_total r = decimal_double (Qmake 250 1) →
     is_balanced r = true)
  ∧ (debit_total r = decimal_double (Qmake 10001 100) →
     credit_total r = decimal_double (Qmake 100 1) →
     is_balanced r = false).
Proof.
  intros Hrun.
  assert (table_name ∈ valid_tables) as Hvalid.
  { destruct (decide (table_name ∈ valid_tables)) as [|Hn]; [done|].
    unfold check_total_match, mbind, M_bind, lift in Hrun.
    rewrite get_model_by_name_invalid in Hrun by done. done. }
  split; [done|].
  unfold check_total_match, mbind, M_bind, lift in Hrun.
  rewrite get_model_by_name_valid in Hrun by done. cbn in Hrun.
  injection Hrun as <- <-. cbn.
  split; [done|].
  split. { intros f ->. cbn. split; [by intros ->|].
           rewrite neb_eqb. by intros ->. }
  split. { by intros ->. }
  split. { intros f ->. cbn. split; [by intros ->|].
           rewrite neb_eqb. by intros ->. }
  split. { by intros ->. }
  split; [done|].
  repeat split; by intros -> ->.
Qed.

(** Two totals exactly 0.01 apart as decimals, 250.01 and 250.00: the
    specification's test on the decimals says not balanced; the doubles
    that hold them differ by less than the double 0.01, and the check
    says balanced. The same happens for 0.06 and 0.05. Nor does the check
    agree with the test on the exact values of the doubles it is given:
    the double 0.01 less the double [2^-61] is below 0.01, yet the
    subtraction rounds it to the double 0.01 and the check says not
    balanced. *)
Lemma check_total_match_cent_apart :
  Qabs (Qminus (Qmake 25001 100) (Qmake 250 1)) == Qmake 1 100
  ∧ stated_is_balanced (Qmake 25001 100) (Qmake 250 1) = false
  ∧ fmap (M:=result) is_balanced
      (check_total_match "current_year"
         (get_db_session
            (totals_store (PyFloat (decimal_double (Qmake 25001 100)))
               (PyFloat (decimal_double (Qmake 250 1)))))).1
    = Ok true
  ∧ stated_is_balanced (Qmake 6 100) (Qmake 5 100) = false
  ∧ fmap (M:=result) is_balanced
      (check_total_match "current_year"
         (get_db_session
            (totals_store (PyFloat (decimal_double (Qmake 6 100)))
               (PyFloat (decimal_double (Qmake 5 100)))))).1
    = Ok true
  ∧ stated_is_balanced (exact_value (decimal_double (Qmake 1 100)))
      (exact_value (decimal_double (Qmake 1 (2 ^ 61)))) = true
  ∧ fmap (M:=result) is_balanced
      (check_total_match "current_year"
         (get_db_session
            (totals_store (PyFloat (decimal_double (Qmake 1 100)))
               (PyFloat (decimal_double (Qmake 1 (2 ^ 61))))))).1
    = Ok false.
Proof. repeat split; by vm_compute. Qed.

Lemma check_total_match_boundary :
  is_balanced <$> (check_total_match "current_year"
     (get_db_session (totals_store (PyFloat (of_ratio false 1 100)) PyNone))).1
  = Ok false
  ∧ is_balanced <$> (check_total_match "current_year"
     (get_db_session (totals_store (PyFloat (of_ratio false 99 10000)) (PyFloat zero)))).1
  = Ok true
  ∧ is_balanced <$> (check_total_match "previous_year"
     (get_db_session (totals_store (PyFloat (of_ratio false 10001 100))
                        (PyFloat (of_Z 100))))).1
  = Ok false.
Proof. repeat split; by vm_compute. Qed.

(** ** Argument validation of [get_total] *)

(** C6, as the code has it: [get_total] raises the invalid-column error
    for every column outside debit, credit, balance, whatever the table
    name; it raises the unknown-table error for every table name outside
    current_year, previous_year when the column is valid; in both cases
    the session is left as it was: no statement has been executed. *)
Theorem get_total_validation table_name column db :
  (column ∉ valid_columns →
   get_total table_name column db = (Raise (invalid_column_error column), db))
  ∧ (column ∈ valid_columns → table_name ∉ valid_tables →
     get_total table_name column db = (Raise (unknown_table_error table_name), db)).
Proof.
  unfold get_total. split.
  - intros H. by rewrite bool_decide_eq_false_2.
  - intros Hc Ht. rewrite bool_decide_eq_true_2 by done. cbn.
    unfold mbind, M_bind, lift. by rewrite get_model_by_name_invalid.
Qed.

(** With an unknown table name and an invalid column, the error is the
    invalid-column one: the column is checked first. *)
Lemma get_total_both_invalid :
  get_total "foo" "foo" (get_db_session empty_store)
  = (Raise (invalid_column_error "foo"), get_db_session empty_store)
  ∧ ("foo" ∉ valid_tables)
  ∧ ((get_total "foo" "foo" (get_db_session empty_store)).1
     ≠ Raise (unknown_table_error "foo")).
Proof.
  split; [reflexivity|]. split; [|discriminate].
  unfold valid_tables. rewrite !not_elem_of_cons. repeat split; try discriminate.
  apply not_elem_of_nil.
Qed.

(** For valid arguments exactly one statement is executed, and the total
    is the store's sum, or 0.0 when the sum is None. *)
Lemma get_total_valid table_name column db :
  table_name ∈ valid_tables → column ∈ valid_columns →
  ∃ c, getattr (model_of table_name) column = Ok c
       ∧ get_total table_name column db
         = (Ok (match sum_of (store db) (model_of table_name) c with
                | PyFloat f => f
                | PyNone => zero
                end),
            log (SelectSum (model_of table_name) c) db).
Proof.
  intros Ht Hc. destruct (getattr_valid (model_of table_name) column Hc) as (c & Hg & _).
  exists c. split; [done|].
  unfold get_total. rewrite bool_decide_eq_true_2 by done. cbn.
  unfold mbind, M_bind, lift. rewrite get_model_by_name_valid by done.
  by rewrite Hg.
Qed.

(** ** The total tool *)

Lemma TotalResponse_new_ok table_name column total_value resp :
  TotalResponse_new table_name column total_value = Ok resp →
  table_name ∈ valid_tables ∧ column ∈ valid_columns
  ∧ geb total_value zero = true
  ∧ resp = {| table_name := table_name; column := column;
              total := total_value |}.
Proof.
  unfold TotalResponse_new.
  destruct (bool_decide (table_name ∈ valid_tables)) eqn:Ht; [|done].
  destruct (bool_decide (column ∈ valid_columns)) eqn:Hc; [|done].
  destruct (geb total_value zero) eqn:Hg; [|done]. cbn.
  intros [= <-]. apply bool_decide_eq_true in Ht, Hc. done.
Qed.

(** C7: for every valid period and every valid column, [balance]
    included, the [total] field of a response the total tool returns is
    [>= 0]. *)
Theorem total_response_nonnegative st table_name column resp :
  table_name ∈ valid_tables → column ∈ valid_columns →
  totalTool st table_name column = Ok resp →
  geb (total resp) zero = true
  ∧ resp = {| table_name := table_name; column := column; total := total resp |}
  ∧ (get_total table_name column (get_db_session st)).1 = Ok (total resp).
Proof.
  intros Ht Hc. unfold totalTool.
  destruct (get_total_valid table_name column (get_db_session st) Ht Hc)
    as (c & _ & ->).
  intros H. apply TotalResponse_new_ok in H as (_ & _ & Hge & ->). done.
Qed.

(** For valid arguments the tool returns exactly when the total passes
    the [ge=0] check of the response model, and raises otherwise. *)
Lemma totalTool_valid st table_name column :
  table_name ∈ valid_tables → column ∈ valid_columns →
  ∃ v, (get_total table_name column (get_db_session st)).1 = Ok v
       ∧ totalTool st table_name column
         = if geb v zero
           then Ok {| table_name := table_name; column := column; total := v |}
           else Raise ValidationError.
Proof.
  intros Ht Hc. unfold totalTool.
  destruct (get_total_valid table_name column (get_db_session st) Ht Hc)
    as (c & _ & ->).
  eexists. split; [reflexivity|]. unfold TotalResponse_new.
  by rewrite !bool_decide_eq_true_2.
Qed.

Lemma total_tool_negative_sum :
  (get_total "current_year" "balance" (get_db_session negative_balance_store)).1
  = Ok (of_Z (-5))
  ∧ totalTool negative_balance_store "current_year" "balance" = Raise ValidationError.
Proof. split; by vm_compute. Qed.

(** ** Instances on concrete stores *)

Lemma elements_perm (s : gset string) : elements s ≡ₚ elements s.
Proof. reflexivity. Defined.

Lemma example_emitted_run :
  variance_results_of elements example_current example_previous default_threshold
  = Ok example_emitted.
Proof. vm_compute. reflexivity. Defined.

Lemma example_report_run :
  get_variance_analysis elements default_threshold (get_db_session example_store)
  = (Ok example_report, analysis_log (get_db_session example_store)).
Proof. vm_compute. reflexivity. Defined.




Lemma variance_report_counts_witness :
  ∃ emitted,
    variance_results_of elements example_current example_previous default_threshold
    = Ok emitted
    ∧ total_accounts example_report
      = size (dom example_current ∪ dom example_previous)
    ∧ total_accounts example_report
      = size (list_to_set (distinct_name_balance example_store TrailBalanceCurrentYear).*1
              ∪ list_to_set (distinct_name_balance example_store TrailBalancePreviousYear).*1
              : gset string)
    ∧ variances_exceeding_threshold example_report
      = filter (fun v => exceeds_threshold v = true) emitted
    ∧ variance_count example_report
      = length (variances_exceeding_threshold example_report)
    ∧ threshold_used example_report = default_threshold.
Proof.
  exact (variance_report_counts elements default_threshold
           (get_db_session example_store) example_report _ example_report_run).
Defined.

Lemma variance_report_invariant_witness :
  (0 ≤ variance_count example_report ≤ total_accounts example_report)%nat
  ∧ ∀ r, r ∈ variances_exceeding_threshold example_report →
      exceeds_threshold r = true
      ∧ geb (variance_percentage r) default_threshold = true
      ∧ neb (variance_percentage r) zero = true.
Proof.
  exact (variance_report_invariant elements elements_perm default_threshold
           (get_db_session example_store) example_report _ example_report_run).
Defined.

Lemma variance_example_witness :
  ∃ report db' emitted,
    get_variance_analysis elements default_threshold
      (get_db_session example_store) = (Ok report, db')
    ∧ total_accounts report = 3%nat
    ∧ variance_count report = 2%nat
    ∧ variances_exceeding_threshold report ≡ₚ [example_B; example_C]
    ∧ variance_results_of elements (current_snapshot example_store)
        (previous_snapshot example_store) default_threshold = Ok emitted
    ∧ emitted ≡ₚ [example_B; example_C]
    ∧ (∀ r, r ∈ emitted → account_name r ≠ "A").
Proof. exact (variance_example elements elements_perm). Defined.

Lemma current_year_valid : "current_year" ∈ valid_tables.
Proof. by_decide. Defined.

Lemma debit_valid : "debit" ∈ valid_columns.
Proof. by_decide. Defined.

Lemma foo_not_column : "foo" ∉ valid_columns.
Proof. by_decide. Defined.

Lemma foo_not_table : "foo" ∉ valid_tables.
Proof. by_decide. Defined.

Lemma ledger_match_run :
  check_total_match "current_year" (get_db_session ledger_store)
  = (Ok ledger_match,
     log (SelectSum TrailBalanceCurrentYear Col_credit)
       (log (SelectSum TrailBalanceCurrentYear Col_debit) (get_db_session ledger_store))).
Proof. vm_compute. reflexivity. Defined.

Lemma check_total_match_tolerance_witness :
  "current_year" ∈ valid_tables
  ∧ (is_balanced ledger_match = true
     ↔ ltb (abs (sub (debit_total ledger_match) (credit_total ledger_match)))
         (decimal_double (Qmake 1 100)) = true).
Proof.
  destruct (check_total_match_tolerance "current_year" (get_db_session ledger_store)
              ledger_match _ ledger_match_run)
    as (Hvalid & _ & _ & _ & _ & _ & Hiff & _).
  exact (conj Hvalid Hiff).
Defined.

Lemma get_total_validation_witness :
  get_total "current_year" "foo" (get_db_session ledger_store)
  = (Raise (invalid_column_error "foo"), get_db_session ledger_store)
  ∧ get_total "foo" "debit" (get_db_session ledger_store)
    = (Raise (unknown_table_error "foo"), get_db_session ledger_store).
Proof.
  split.
  - exact (proj1 (get_total_validation "current_year" "foo" (get_db_session ledger_store))
             foo_not_column).
  - exact (proj2 (get_total_validation "foo" "debit" (get_db_session ledger_store))
             debit_valid foo_not_table).
Defined.

Lemma ledger_total_run : totalTool ledger_store "current_year" "debit" = Ok ledger_response.
Proof. vm_compute. reflexivity. Defined.

Lemma total_response_nonnegative_witness :
  geb (total ledger_response) zero = true
  ∧ ledger_response
    = {| table_name := "current_year"; column := "debit";
         total := total ledger_response |}
  ∧ (get_total "current_year" "debit" (get_db_session ledger_store)).1
    = Ok (total ledger_response).
Proof.
  exact (total_response_nonnegative ledger_store "current_year" "debit" ledger_response
           current_year_valid debit_valid ledger_total_run).
Defined.

(** *** A NaN balance *)

(** With threshold 0.0 and a NaN balance the loop emits a record whose
    percentage is a NaN: it is [!= 0.0], yet not [>= 0.0], so the record
    is not flagged and the returned list is empty. *)
Lemma nonpositive_threshold_nan_balance :
  leb zero zero = true
  ∧ variance_results_of elements (current_snapshot nan_store)
      (previous_snapshot nan_store) zero = Ok [nan_record]
  ∧ neb (variance_percentage nan_record) zero = true
  ∧ exceeds_threshold nan_record = false
  ∧ fmap (M:=result) variances_exceeding_threshold
      (get_variance_analysis elements zero (get_db_session nan_store)).1
    = Ok [].
Proof. repeat split; by vm_compute. Qed.

Lemma negative_threshold_nonpositive : leb negative_threshold zero = true.
Proof. reflexivity. Defined.

Lemma example_report_negative_run :
  get_variance_analysis elements negative_threshold (get_db_session example_store)
  = (Ok example_report_negative, analysis_log (get_db_session example_store)).
Proof. vm_compute. reflexivity. Defined.

Lemma nonpositive_threshold_flags_numbers_witness :
  ∃ emitted,
    variance_results_of elements (current_snapshot example_store)
      (previous_snapshot example_store) negative_threshold = Ok emitted
    ∧ (∀ r, r ∈ emitted → is_nan (variance_percentage r) = false →
            exceeds_threshold r = true)
    ∧ ((∀ r, r ∈ emitted → is_nan (variance_percentage r) = false) →
       variances_exceeding_threshold example_report_negative = emitted)
    ∧ (snapshot_finite (current_snapshot example_store) →
       snapshot_finite (previous_snapshot example_store) →
       variances_exceeding_threshold example_report_negative = emitted).
Proof.
  exact (proj2 (nonpositive_threshold_flags_numbers elements elements_perm
                  (get_db_session example_store))
           negative_threshold example_report_negative _
           negative_threshold_nonpositive example_report_negative_run).
Defined.

(** * Further properties of the code *)

(** The session of the model answers every statement, where
    [await db.execute] can fail; and a tool is modelled by its body, which
    the server enters only once the arguments have passed the check
    against their annotations. The properties of whole queries and of
    the tools are therefore stated for the runs that return a result, or
    for the parts of the code that execute no statement: the guards on
    the names and the loop of the analysis. *)

(** ** More facts of the arithmetic *)

Module SubFacts.

(** The rounded result differs only in its sign when the sign given to
    the rounding differs. *)
Lemma abs_binary_round_aux s s' m e l :
  abs (binary_round_aux prec emax s m e l) = abs (binary_round_aux prec emax s' m e l).
Proof.
  unfold binary_round_aux.
  destruct (shr_fexp prec emax m e l) as [mrs' e'].
  destruct (shr_fexp prec emax _ e' loc_Exact) as [mrs'' e''].
  destruct (shr_m mrs''); cbn; [done| |done].
  by destruct (_ <=? _).
Qed.

Lemma abs_binary_normalize_opp m e sz sz' :
  abs (binary_normalize prec emax (- m) e sz) = abs (binary_normalize prec emax m e sz').
Proof.
  destruct m as [|p|p]; [done| |].
  - change (- Z.pos p) with (Z.neg p). unfold binary_normalize, binary_round.
    destruct (shl_align _ _ _). apply abs_binary_round_aux.
  - change (- Z.neg p) with (Z.pos p). unfold binary_normalize, binary_round.
    destruct (shl_align _ _ _). apply abs_binary_round_aux.
Qed.

(** [abs(x - y) = abs(y - x)], bit for bit. *)
Lemma abs_sub_comm x y : abs (sub x y) = abs (sub y x).
Proof.
  destruct x as [sx|sx| |sx mx ex], y as [sy|sy| |sy my ey]; try done;
    try (by destruct sx, sy).
  unfold sub, SFsub. rewrite (Z.min_comm ey ex).
  set (a := cond_Zopp sx _). set (b := cond_Zopp sy _).
  replace (Z.sub b a) with (- (Z.sub a b)) by lia.
  symmetry. apply abs_binary_normalize_opp.
Qed.

(** A finite number minus itself is [+0.0]. *)
Lemma sub_diag x : is_finite x = true → sub x x = zero.
Proof.
  destruct x as [s|s| |s m e]; try done.
  - by destruct s.
  - intros _. unfold sub, SFsub. rewrite Z.min_id.
    set (a := cond_Zopp s _). by replace (Z.sub a a) with 0 by lia.
Qed.

(** A number divided by itself, up to the sign, is exactly one. *)
Lemma div_same_mantissa s s' m e :
  div (S754_finite s m e) (S754_finite s' m e)
  = S754_finite (xorb s s') 4503599627370496 (-52).
Proof.
  unfold div, SFdiv, SFdiv_core_binary.
  replace (Z.sub (Z.add (Zdigits2 (Z.pos m)) e) (Z.add (Zdigits2 (Z.pos m)) e))
    with 0 by lia.
  replace (Z.sub e e) with 0 by lia.
  change (Z.min (fexp prec emax 0) 0) with (-53).
  change (Z.sub 0 (-53)) with 53.
  cbv beta iota zeta.
  pose proof (Z_div_mod (Z.shiftl (Z.pos m) 53) (Z.pos m) ltac:(lia)) as Hdiv.
  destruct (Z.div_eucl (Z.shiftl (Z.pos m) 53) (Z.pos m)) as [q r].
  rewrite Z.shiftl_mul_pow2 in Hdiv by lia.
  destruct Hdiv as [Heq Hr].
  assert (q = 2 ^ 53) as ->.
  { rewrite (Z.div_unique _ _ q r (or_introl Hr) Heq).
    rewrite Z.mul_comm. apply Z.div_mul. lia. }
  assert (r = 0) as -> by lia.
  assert (new_location (Z.pos m) 0 = loc_Exact) as ->.
  { unfold new_location. by destruct (Z.even (Z.pos m)). }
  destruct s, s'; reflexivity.
Qed.

End SubFacts.

(** ** The totals *)

(** X1: for a valid table name, [get_total] with column debit, credit or
    balance executes exactly one statement, the sum of that very column
    of the selected table, and returns the store's sum, or 0.0 when the
    sum is [None] (an empty table). *)
Theorem get_total_reads_column table_name db :
  table_name ∈ valid_tables →
  get_total table_name "debit" db
  = (Ok (total_or_zero (sum_of (store db) (model_of table_name) Col_debit)),
     log (SelectSum (model_of table_name) Col_debit) db)
  ∧ get_total table_name "credit" db
    = (Ok (total_or_zero (sum_of (store db) (model_of table_name) Col_credit)),
       log (SelectSum (model_of table_name) Col_credit) db)
  ∧ get_total table_name "balance" db
    = (Ok (total_or_zero (sum_of (store db) (model_of table_name) Col_balance)),
       log (SelectSum (model_of table_name) Col_balance) db)
  ∧ (∀ column, column ∈ valid_columns →
       (∀ c, sum_of (store db) (model_of table_name) c = PyNone) →
       (get_total table_name column db).1 = Ok zero).
Proof.
  intros Ht.
  assert (∀ column, get_total table_name column db
          = if bool_decide (column ∈ valid_columns)
            then match getattr (model_of table_name) column with
                 | Ok c => (Ok (total_or_zero (sum_of (store db) (model_of table_name) c)),
                            log (SelectSum (model_of table_name) c) db)
                 | Raise e => (Raise e, db)
                 end
            else (Raise (invalid_column_error column), db)) as Hrun.
  { intros column. unfold get_total. destruct (bool_decide _); [|done]. cbn.
    unfold mbind, M_bind, lift. rewrite get_model_by_name_valid by done.
    by destruct (getattr _ _). }
  repeat split; try (rewrite Hrun; reflexivity).
  intros column Hc Hempty. rewrite Hrun, bool_decide_eq_true_2 by done.
  destruct (getattr_valid (model_of table_name) column Hc) as (c & -> & _).
  cbn. by rewrite Hempty.
Qed.

(** X2: for a table name that is not current_year or previous_year the
    reconciliation check raises the unknown-table error before any
    statement is executed; so a result it returns is for one of the two
    tables. *)
Theorem check_total_match_unknown_table table_name db :
  (table_name ∉ valid_tables →
   check_total_match table_name db = (Raise (unknown_table_error table_name), db))
  ∧ (∀ r db', check_total_match table_name db = (Ok r, db') →
              table_name ∈ valid_tables).
Proof.
  assert (table_name ∉ valid_tables →
          check_total_match table_name db
          = (Raise (unknown_table_error table_name), db)) as Hbad.
  { intros Ht. unfold check_total_match, mbind, M_bind, lift.
    by rewrite get_model_by_name_invalid. }
  split; [done|]. intros r db' Hrun.
  destruct (decide (table_name ∈ valid_tables)) as [|Hn]; [done|].
  rewrite (Hbad Hn) in Hrun. done.
Qed.

Lemma check_total_match_run table_name db :
  table_name ∈ valid_tables →
  (check_total_match table_name db).1
  = Ok (let d := py_or_zero (sum_of (store db) (model_of table_name) Col_debit) in
        let c := py_or_zero (sum_of (store db) (model_of table_name) Col_credit) in
        {| debit_total := d; credit_total := c;
           is_balanced := ltb (abs (sub d c)) c0_01 |}).
Proof.
  intros Ht. unfold check_total_match, mbind, M_bind, lift.
  by rewrite get_model_by_name_valid.
Qed.

(** X3: the reconciliation check is symmetric: exchanging the debit sum
    and the credit sum of the store exchanges the two totals and leaves
    [is_balanced] as it was. *)
Theorem check_total_match_symmetric table_name st :
  table_name ∈ valid_tables →
  ∃ r r',
    (check_total_match table_name (get_db_session st)).1 = Ok r
    ∧ (check_total_match table_name (get_db_session (swap_totals st))).1 = Ok r'
    ∧ debit_total r' = credit_total r
    ∧ credit_total r' = debit_total r
    ∧ is_balanced r' = is_balanced r.
Proof.
  intros Ht. rewrite !check_total_match_run by done. cbn.
  eexists _, _. split; [reflexivity|]. split; [reflexivity|]. cbn.
  split; [done|]. split; [done|]. by rewrite SubFacts.abs_sub_comm.
Qed.

(** X4: equal finite totals are balanced, in particular the totals 0.0
    of an empty table; a NaN total is never balanced, and neither are
    two equal infinite totals. *)
Theorem check_total_match_equal_totals table_name db r :
  table_name ∈ valid_tables →
  (check_total_match table_name db).1 = Ok r →
  (debit_total r = credit_total r → is_finite (debit_total r) = true →
   is_balanced r = true)
  ∧ (sum_of (store db) (model_of table_name) Col_debit = PyNone →
     sum_of (store db) (model_of table_name) Col_credit = PyNone →
     debit_total r = zero ∧ credit_total r = zero ∧ is_balanced r = true)
  ∧ (is_nan (debit_total r) = true ∨ is_nan (credit_total r) = true →
     is_balanced r = false)
  ∧ (debit_total r = credit_total r → is_finite (debit_total r) = false →
     is_balanced r = false).
Proof.
  intros Ht. rewrite check_total_match_run by done. intros [= <-]. cbn.
  split. { intros <- Hf. by rewrite SubFacts.sub_diag. }
  split. { by intros -> ->. }
  split.
  - intros [H|H].
    + by destruct (py_or_zero (sum_of _ _ Col_debit)).
    + destruct (py_or_zero (sum_of _ _ Col_credit)); try done.
      by destruct (py_or_zero (sum_of _ _ Col_debit)).
  - intros <-. destruct (py_or_zero (sum_of _ _ Col_debit)) as [s|s| |s m e];
      try done. by destruct s.
Qed.

(** X5: the totals of the reconciliation check are the totals
    [get_total] returns for the debit and the credit column, except for
    a sum of -0.0, which [get_total] returns as it is and the check
    turns into 0.0. *)
Theorem check_total_match_agrees_with_get_total table_name db :
  table_name ∈ valid_tables →
  ∃ r d c,
    (check_total_match table_name db).1 = Ok r
    ∧ (get_total table_name "debit" db).1 = Ok d
    ∧ (get_total table_name "credit" db).1 = Ok c
    ∧ (debit_total r = d ∨ (d = S754_zero true ∧ debit_total r = zero))
    ∧ (credit_total r = c ∨ (c = S754_zero true ∧ credit_total r = zero)).
Proof.
  intros Ht. rewrite check_total_match_run by done.
  assert (∀ v, py_or_zero v = total_or_zero v
               ∨ (total_or_zero v = S754_zero true ∧ py_or_zero v = zero)) as Hv.
  { intros [|[[]|[]| |[] m e]]; (by left) || (by right). }
  assert (∀ column c, getattr (model_of table_name) column = Ok c →
            column ∈ valid_columns →
            (get_total table_name column db).1
            = Ok (total_or_zero (sum_of (store db) (model_of table_name) c))) as Hg.
  { intros column c Hc Hin. unfold get_total. rewrite bool_decide_eq_true_2 by done.
    cbn. unfold mbind, M_bind, lift. rewrite get_model_by_name_valid by done.
    by rewrite Hc. }
  eexists _, _, _. split; [reflexivity|].
  split. { apply (Hg "debit" Col_debit); [done|by_decide]. }
  split. { apply (Hg "credit" Col_credit); [done|by_decide]. }
  cbn. split; apply Hv.
Qed.

(** ** The dictionaries of the analysis *)

Lemma foldl_insert_other (rows : list (string * PyVal)) (d : gmap string PyVal) k :
  k ∉ rows.*1 →
  foldl (fun d row => <[row.1 := row.2]> d) d rows !! k = d !! k.
Proof.
  revert d. induction rows as [|[k' v'] rows IH]; intros d Hk; cbn; [done|].
  cbn in Hk. apply not_elem_of_cons in Hk as [Hne Hk].
  rewrite IH by done. by rewrite lookup_insert_ne.
Qed.

(** X6: when a result set has several rows with the same account name,
    the balance of the last of them is the one the analysis uses; a name
    with no row counts as 0.0. *)
Theorem dict_of_rows_last_wins (rows1 rows2 : list (string * PyVal)) k v :
  k ∉ rows2.*1 →
  dict_of_rows (rows1 ++ (k, v) :: rows2) !! k = Some v
  ∧ dict_get (dict_of_rows (rows1 ++ (k, v) :: rows2)) k = v
  ∧ (∀ k', k' ∉ (rows1 ++ (k, v) :: rows2).*1 →
           dict_get (dict_of_rows (rows1 ++ (k, v) :: rows2)) k' = PyFloat zero).
Proof.
  intros Hk.
  assert (dict_of_rows (rows1 ++ (k, v) :: rows2) !! k = Some v) as Hl.
  { unfold dict_of_rows. rewrite foldl_app. cbn.
    rewrite foldl_insert_other by done. apply lookup_insert_eq. }
  split; [done|]. split.
  - unfold dict_get. by rewrite Hl.
  - intros k' Hk'. apply dict_get_absent. unfold dict_of_rows.
    rewrite foldl_insert_other by done. apply lookup_empty.
Qed.

(** ** The analysis and the order of iteration *)

Lemma omap_none {A B} (f : A → option B) (l : list A) :
  (∀ x, x ∈ l → f x = None) → omap f l = [].
Proof.
  induction l as [|x l IH]; intros H; cbn; [done|].
  rewrite (H x) by left. apply IH. intros y Hy. apply H. by right.
Qed.

Lemma record_names_NoDup cur prev threshold (P : VarianceRecord → Prop)
    `{∀ r, Decision (P r)} (l : list string) :
  NoDup l →
  NoDup (account_name <$> filter P (omap (record_for cur prev threshold) l)).
Proof.
  assert (∀ (l : list string) (name : string), name ∈ account_name <$>
                      filter P (omap (record_for cur prev threshold) l) →
                    name ∈ l) as Hin.
  { intros l' name Hname. apply list_elem_of_fmap in Hname as (r & -> & Hr).
    apply list_elem_of_filter in Hr as [_ Hr].
    apply list_elem_of_omap in Hr as (x & Hx & Hrec).
    apply record_for_Some in Hrec as (c & p & _ & _ & _ & ->). done. }
  induction 1 as [|x l Hx Hl IH]; cbn; [constructor|].
  destruct (record_for cur prev threshold x) as [r|] eqn:Hrec; cbn; [|done].
  destruct (decide (P r)) as [HP|HP]; [|done]. cbn. constructor; [|done].
  apply record_for_Some in Hrec as (c & b & _ & _ & _ & ->). cbn.
  intros Hin'. apply Hx. by apply Hin.
Qed.

(** X7: the report does not depend on the order in which the name set is
    iterated, except for the order of the list: under any two orders the
    analysis returns or raises alike, the counts are the same and the
    lists of flagged records are permutations of each other. *)
Theorem variance_analysis_order_independent
    (order1 order2 : gset string → list string) threshold db :
  (∀ s, order1 s ≡ₚ elements s) →
  (∀ s, order2 s ≡ₚ elements s) →
  (∀ e, (get_variance_analysis order1 threshold db).1 = Raise e →
        (get_variance_analysis order2 threshold db).1 = Raise e)
  ∧ (∀ r1 db1,
       get_variance_analysis order1 threshold db = (Ok r1, db1) →
       ∃ r2,
         get_variance_analysis order2 threshold db = (Ok r2, db1)
         ∧ total_accounts r2 = total_accounts r1
         ∧ variance_count r2 = variance_count r1
         ∧ threshold_used r2 = threshold_used r1
         ∧ variances_exceeding_threshold r2 ≡ₚ variances_exceeding_threshold r1).
Proof.
  intros Hp1 Hp2. rewrite !get_variance_analysis_run.
  set (cur := current_snapshot (store db)). set (prev := previous_snapshot (store db)).
  destruct (variance_results_of order1 cur prev threshold) as [em1|e1] eqn:H1.
  - apply (variance_results_of_inv order1 Hp1) in H1 as [Hbal ->].
    rewrite (variance_results_of_ok order2 Hp2) by done. cbn.
    split; [done|]. intros r1 db1 [= <- <-]. eexists. split; [reflexivity|]. cbn.
    assert (omap (record_for cur prev threshold) (order2 (all_account_names cur prev))
            ≡ₚ omap (record_for cur prev threshold) (order1 (all_account_names cur prev)))
      as Hperm by (by rewrite Hp1, Hp2).
    split; [done|]. split; [by rewrite Hperm|]. split; [done|]. by rewrite Hperm.
  - cbn. split; [|done]. intros e [= <-].
    destruct (variance_results_of order2 cur prev threshold) as [em2|e2] eqn:H2; cbn.
    + apply (variance_results_of_inv order2 Hp2) in H2 as [Hbal _].
      rewrite (variance_results_of_ok order1 Hp1) in H1 by done. done.
    + unfold variance_results_of in H1, H2.
      destruct (decide (Forall (has_balances cur prev)
                          (order1 (all_account_names cur prev)))) as [F|F].
      { rewrite variance_loop_ok in H1 by done. done. }
      rewrite variance_loop_raise in H1 by done.
      destruct (decide (Forall (has_balances cur prev)
                          (order2 (all_account_names cur prev)))) as [F'|F'].
      { rewrite variance_loop_ok in H2 by done. done. }
      rewrite variance_loop_raise in H2 by done. congruence.
Qed.

(** X8: no account name occurs twice among the records of a report, even
    when a table has several rows for the name. *)
Theorem variance_records_distinct_names
    (iteration_order : gset string → list string) threshold db report db' :
  (∀ s, iteration_order s ≡ₚ elements s) →
  get_variance_analysis iteration_order threshold db = (Ok report, db') →
  NoDup (account_name <$> variances_exceeding_threshold report).
Proof.
  intros Hperm Hrun.
  apply get_variance_analysis_ok in Hrun as (emitted & Hrun & -> & _).
  apply (variance_results_of_inv _ Hperm) in Hrun as [_ ->]. cbn.
  apply record_names_NoDup. rewrite Hperm. apply NoDup_elements.
Qed.

(** ** What the percentages of the analysis can be *)

Lemma stated_percentage_same c :
  is_finite c = true → stated_percentage c c = zero.
Proof.
  intros Hf. unfold stated_percentage. rewrite SubFacts.sub_diag by done.
  destruct c as [s|s| |s m e]; try done; by destruct s.
Qed.

Lemma stated_percentage_dropped c s m e :
  eqb c zero = true → stated_percentage c (S754_finite s m e) = c100.
Proof.
  intros Hc. destruct c as [sc|sc| |sc mc ec]; try done;
    try (by destruct sc).
  unfold stated_percentage.
  assert (neb (S754_finite s m e) zero = true) as -> by (by destruct s).
  change (sub (S754_zero sc) (S754_finite s m e)) with (S754_finite (negb s) m e).
  rewrite SubFacts.div_same_mantissa. by destruct s.
Qed.

Lemma ltb_zero_positive x :
  nonneg_or_nan x = true → is_nan x = false → neb x zero = true →
  ltb zero x = true.
Proof. destruct x as [s|s| |s m e]; try done; by destruct s. Qed.

(** X9: when both periods hold the same balances, all finite, the
    analysis returns a report without any record: nothing is emitted and
    [variance_count] is 0. *)
Theorem identical_periods_no_variance
    (iteration_order : gset string → list string) threshold db :
  (∀ s, iteration_order s ≡ₚ elements s) →
  current_snapshot (store db) = previous_snapshot (store db) →
  snapshot_finite (current_snapshot (store db)) →
  variance_results_of iteration_order (current_snapshot (store db))
    (previous_snapshot (store db)) threshold = Ok []
  ∧ ∃ report,
      get_variance_analysis iteration_order threshold db = (Ok report, analysis_log db)
      ∧ variance_count report = 0%nat
      ∧ variances_exceeding_threshold report = []
      ∧ total_accounts report = size (dom (current_snapshot (store db))).
Proof.
  intros Hperm Heq Hfin. rewrite get_variance_analysis_run. rewrite <- Heq.
  set (cur := current_snapshot (store db)) in *.
  assert (variance_results_of iteration_order cur cur threshold = Ok []) as Hrun.
  { rewrite (variance_results_of_ok _ Hperm).
    - f_equal. apply omap_none. intros name _. unfold record_for.
      destruct (snapshot_finite_get cur name Hfin) as (c & -> & Hc).
      cbn. by rewrite stated_percentage_same.
    - intros name _. destruct (snapshot_finite_get cur name Hfin) as (c & Hc & _).
      unfold has_balances. by rewrite Hc. }
  split; [done|]. rewrite Hrun. cbn. eexists. split; [reflexivity|]. cbn.
  repeat split. unfold all_account_names. f_equal. set_solver.
Qed.

(** X10: an account whose balance is zero or missing in one period and a
    finite non-zero number in the other has percentage 100.0: its record
    is emitted, and it is flagged exactly when [100.0 >= threshold]. The
    same holds when the previous balance is zero or missing and the
    current one is any non-zero value. *)
Theorem new_and_dropped_accounts
    (iteration_order : gset string → list string) cur prev threshold emitted :
  (∀ s, iteration_order s ≡ₚ elements s) →
  variance_results_of iteration_order cur prev threshold = Ok emitted →
  ∀ name c p,
    name ∈ all_account_names cur prev →
    dict_get cur name = PyFloat c → dict_get prev name = PyFloat p →
    (eqb c zero = true ∧ (∃ s m e, p = S754_finite s m e))
    ∨ (eqb p zero = true ∧ neb c zero = true) →
    ∃ r, r ∈ emitted
         ∧ account_name r = name
         ∧ variance_percentage r = c100
         ∧ variance_amount r = sub c p
         ∧ exceeds_threshold r = geb c100 threshold.
Proof.
  intros Hperm Hrun name c p Hin Hc Hp Hside.
  apply (variance_results_of_inv _ Hperm) in Hrun as [_ ->].
  assert (stated_percentage c p = c100) as Hpct.
  { destruct Hside as [[Hz (s & m & e & ->)]|[Hz Hnz]].
    - by apply stated_percentage_dropped.
    - unfold stated_percentage. rewrite neb_eqb, Hz. cbn. by rewrite Hnz. }
  eexists. split.
  - apply list_elem_of_omap. exists name.
    split; [by apply (elem_of_iteration_order _ Hperm)|].
    apply record_for_Some. exists c, p. rewrite Hpct. eauto.
  - done.
Qed.

(** X11: the percentage of an emitted record is never negative: it is a
    NaN or strictly positive, and strictly positive when all balances of
    both periods are finite. *)
Theorem emitted_percentage_positive
    (iteration_order : gset string → list string) cur prev threshold emitted :
  (∀ s, iteration_order s ≡ₚ elements s) →
  variance_results_of iteration_order cur prev threshold = Ok emitted →
  ∀ r, r ∈ emitted →
    (is_nan (variance_percentage r) = true ∨ ltb zero (variance_percentage r) = true)
    ∧ (snapshot_finite cur → snapshot_finite prev →
       ltb zero (variance_percentage r) = true).
Proof.
  intros Hperm Hrun r Hr.
  apply (variance_results_of_inv _ Hperm) in Hrun as [_ ->].
  apply list_elem_of_omap in Hr as (name & _ & Hrec).
  apply record_for_Some in Hrec as (c & p & Ec & Ep & Hz & ->). cbn.
  pose proof (FloatFacts.stated_percentage_nonneg c p) as Hnn. split.
  - destruct (is_nan (stated_percentage c p)) eqn:Hnan; [by left|right].
    by apply ltb_zero_positive.
  - intros Hc Hp. apply ltb_zero_positive; [done| |done].
    destruct (snapshot_finite_get _ name Hc) as (c' & Ec' & Hfc).
    destruct (snapshot_finite_get _ name Hp) as (p' & Ep' & Hfp).
    apply FloatFacts.stated_percentage_not_nan; congruence.
Qed.

(** ** When the analysis raises *)

(** X12: the loop over the account names raises exactly when some
    account of the union has a [None] balance, and what it raises is a
    [TypeError]: it never divides by zero. So when the analysis returns
    a report, every balance it read is a number, and the two statements
    it executed are the two selections, current year first. *)
Theorem variance_analysis_raises_on_null
    (iteration_order : gset string → list string) cur prev threshold db :
  (∀ s, iteration_order s ≡ₚ elements s) →
  (variance_results_of iteration_order cur prev threshold = Raise TypeError
   ↔ ∃ name, name ∈ all_account_names cur prev ∧ ¬ has_balances cur prev name)
  ∧ (∀ e, variance_results_of iteration_order cur prev threshold = Raise e →
          e = TypeError)
  ∧ (∀ report db',
       get_variance_analysis iteration_order threshold db = (Ok report, db') →
       db' = analysis_log db
       ∧ executed db'
         = executed db
           ++ [SelectDistinct TrailBalanceCurrentYear [Col_account_name; Col_balance];
               SelectDistinct TrailBalancePreviousYear [Col_account_name; Col_balance]]
       ∧ ∀ name, name ∈ all_account_names (current_snapshot (store db))
                          (previous_snapshot (store db)) →
                 has_balances (current_snapshot (store db))
                   (previous_snapshot (store db)) name).
Proof.
  intros Hperm.
  assert (∀ e, variance_results_of iteration_order cur prev threshold = Raise e →
               e = TypeError
               ∧ ∃ name, name ∈ all_account_names cur prev
                         ∧ ¬ has_balances cur prev name) as Hraise.
  { intros e He. unfold variance_results_of in He.
    destruct (decide (Forall (has_balances cur prev)
                        (iteration_order (all_account_names cur prev)))) as [F|F].
    - rewrite variance_loop_ok in He by done. done.
    - rewrite variance_loop_raise in He by done. split; [congruence|].
      apply not_Forall_Exists in F; [|apply _].
      apply Exists_exists in F as (name & Hin & Hnb). exists name.
      split; [|done]. by apply (elem_of_iteration_order _ Hperm). }
  split; [split|split].
  - intros He. by apply (Hraise _ He).
  - intros (name & Hin & Hnb). unfold variance_results_of.
    rewrite variance_loop_raise; [done|].
    rewrite Forall_forall. intros HF. apply Hnb, HF.
    by apply (elem_of_iteration_order _ Hperm).
  - intros e He. by apply (Hraise _ He).
  - intros report db' Hrun.
    apply get_variance_analysis_ok in Hrun as (emitted & Hrun & _ & ->).
    split; [done|]. split; [cbn; by rewrite <- app_assoc|].
    by apply (variance_results_of_inv _ Hperm) in Hrun as [Hbal _].
Qed.

(** X13: [total_accounts] is 0 exactly when both result sets are empty,
    and then the report has no record. *)
Theorem variance_analysis_empty_tables
    (iteration_order : gset string → list string) threshold db report db' :
  (∀ s, iteration_order s ≡ₚ elements s) →
  get_variance_analysis iteration_order threshold db = (Ok report, db') →
  (total_accounts report = 0%nat
   ↔ distinct_name_balance (store db) TrailBalanceCurrentYear = []
     ∧ distinct_name_balance (store db) TrailBalancePreviousYear = [])
  ∧ (total_accounts report = 0%nat →
     variance_count report = 0%nat ∧ variances_exceeding_threshold report = []).
Proof.
  intros Hperm Hrun.
  apply get_variance_analysis_ok in Hrun as (emitted & Hrun & -> & _).
  apply (variance_results_of_inv _ Hperm) in Hrun as [_ ->]. cbn.
  unfold all_account_names, current_snapshot, previous_snapshot.
  rewrite !dom_dict_of_rows.
  set (rc := distinct_name_balance (store db) TrailBalanceCurrentYear).
  set (rp := distinct_name_balance (store db) TrailBalancePreviousYear).
  assert (size (list_to_set rc.*1 ∪ list_to_set rp.*1 : gset string) = 0%nat
          ↔ rc = [] ∧ rp = []) as Hiff.
  { rewrite size_empty_iff. split.
    - intros He. split.
      + destruct rc as [|[k v] rc']; [done|]. exfalso.
        assert (k ∈ (∅ : gset string)) as Hk by (rewrite <- He; set_solver).
        set_solver.
      + destruct rp as [|[k v] rp']; [done|]. exfalso.
        assert (k ∈ (∅ : gset string)) as Hk by (rewrite <- He; set_solver).
        set_solver.
    - intros [-> ->]. set_solver. }
  split; [done|]. intros Hz. apply Hiff in Hz as [Hc Hp].
  rewrite Hc, Hp. cbn.
  assert (iteration_order (∅ ∪ ∅) = []) as ->; [|done].
  apply Permutation_nil_r. rewrite Hperm.
  replace (∅ ∪ ∅ : gset string) with (∅ : gset string) by set_solver.
  by rewrite elements_empty.
Qed.

(** ** The tools *)

Lemma listing_queries_run table_name db :
  table_name ∈ valid_tables →
  get_account_names table_name db
  = (Ok (distinct_names (store db) (model_of table_name)),
     log (SelectDistinct (model_of table_name) [Col_account_name]) db)
  ∧ get_gl_accounts table_name db
    = (Ok (distinct_gl_accounts (store db) (model_of table_name)),
       log (SelectDistinct (model_of table_name) [Col_gl_account]) db).
Proof.
  intros Ht. unfold get_account_names, get_gl_accounts, mbind, M_bind, lift.
  by rewrite get_model_by_name_valid.
Qed.

Lemma listing_queries_raise table_name db :
  table_name ∉ valid_tables →
  get_account_names table_name db = (Raise (unknown_table_error table_name), db)
  ∧ get_gl_accounts table_name db = (Raise (unknown_table_error table_name), db).
Proof.
  intros Ht. unfold get_account_names, get_gl_accounts, mbind, M_bind, lift.
  by rewrite get_model_by_name_invalid.
Qed.

(** X14: for a table name that is not one of the two periods the two
    listing queries raise the unknown-table error and execute nothing.
    When a listing query returns, it has executed one statement and its
    result is the names, or the account numbers, as the store lists them;
    when a listing tool returns, its response carries that list, in that
    order, and echoes the table name. *)
Theorem listing_tools_outcome st db table_name :
  (table_name ∉ valid_tables →
   get_account_names table_name db = (Raise (unknown_table_error table_name), db)
   ∧ get_gl_accounts table_name db = (Raise (unknown_table_error table_name), db))
  ∧ (∀ names db', get_account_names table_name db = (Ok names, db') →
       table_name ∈ valid_tables
       ∧ names = distinct_names (store db) (model_of table_name)
       ∧ db' = log (SelectDistinct (model_of table_name) [Col_account_name]) db)
  ∧ (∀ numbers db', get_gl_accounts table_name db = (Ok numbers, db') →
       table_name ∈ valid_tables
       ∧ numbers = distinct_gl_accounts (store db) (model_of table_name)
       ∧ db' = log (SelectDistinct (model_of table_name) [Col_gl_account]) db)
  ∧ (∀ resp, accountNameTool st table_name = Ok resp →
       table_name ∈ valid_tables
       ∧ Schema.account_names resp = distinct_names st (model_of table_name)
       ∧ Schema.names_table_name resp = table_name)
  ∧ (∀ resp, glAccountTool st table_name = Ok resp →
       table_name ∈ valid_tables
       ∧ Schema.gl_accounts resp = distinct_gl_accounts st (model_of table_name)
       ∧ Schema.gl_table_name resp = table_name).
Proof.
  destruct (decide (table_name ∈ valid_tables)) as [Ht|Ht].
  - split; [done|].
    assert (∀ db0, get_account_names table_name db0
                   = (Ok (distinct_names (store db0) (model_of table_name)),
                      log (SelectDistinct (model_of table_name) [Col_account_name]) db0)
                   ∧ get_gl_accounts table_name db0
                     = (Ok (distinct_gl_accounts (store db0) (model_of table_name)),
                        log (SelectDistinct (model_of table_name) [Col_gl_account]) db0))
      as Hq by (intros db0; by apply listing_queries_run).
    split. { intros names db'. rewrite (proj1 (Hq db)). by intros [= <- <-]. }
    split. { intros numbers db'. rewrite (proj2 (Hq db)). by intros [= <- <-]. }
    unfold accountNameTool, glAccountTool.
    rewrite (proj1 (Hq (get_db_session st))), (proj2 (Hq (get_db_session st))).
    unfold AccountNamesResponse_new, GlAccountsResponse_new.
    rewrite bool_decide_eq_true_2 by done.
    split; by intros resp [= <-].
  - destruct (listing_queries_raise table_name db Ht) as [Hn Hg].
    destruct (listing_queries_raise table_name (get_db_session st) Ht) as [Hn' Hg'].
    split; [done|]. rewrite Hn, Hg. unfold accountNameTool, glAccountTool.
    rewrite Hn', Hg'. repeat split; done.
Qed.



Lemma mapM_validate_ok (l : list VarianceRecord) :
  (∀ v, v ∈ l → ∃ c p, current_balance v = PyFloat c ∧ previous_balance v = PyFloat p) →
  ∃ items, mapM VarianceAnalysisItem_validate l = Ok items
           ∧ Forall2 (fun v i => VarianceAnalysisItem_validate v = Ok i) l items.
Proof.
  induction l as [|v l IH]; intros H.
  - exists []. split; [done|constructor].
  - destruct IH as (items & Hm & HF). { intros v' Hv'. apply H. by right. }
    destruct (H v) as (c & p & Hc & Hp); [left|].
    assert (∃ i, VarianceAnalysisItem_validate v = Ok i) as [i Hi].
    { unfold VarianceAnalysisItem_validate. rewrite Hc, Hp. eauto. }
    exists (i :: items). split; [|by constructor].
    cbn. rewrite Hi. cbn. by rewrite Hm.
Qed.

(** X17: every response of the variance tool comes from a report the
    analysis returned: it carries the counts and the threshold of that
    report, and one item per flagged record, in the same order, with the
    same fields. The records of a returned report are flagged and have
    numbers for their two balances, so that no item is refused for a
    [None] balance. *)
Theorem varianceAnalysisTool_outcome
    (iteration_order : gset string → list string) st threshold :
  (∀ s, iteration_order s ≡ₚ elements s) →
  (∀ resp,
     varianceAnalysisTool iteration_order st threshold = Ok resp →
     ∃ report db',
       get_variance_analysis iteration_order threshold (get_db_session st)
       = (Ok report, db')
       ∧ Schema.total_accounts resp = total_accounts report
       ∧ Schema.variance_count resp = variance_count report
       ∧ Schema.threshold_used resp = threshold
       ∧ Forall2 (fun v i =>
                    Schema.account_name i = account_name v
                    ∧ PyFloat (Schema.current_balance i) = current_balance v
                    ∧ PyFloat (Schema.previous_balance i) = previous_balance v
                    ∧ Schema.variance_amount i = variance_amount v
                    ∧ Schema.variance_percentage i = variance_percentage v
                    ∧ Schema.exceeds_threshold i = true)
           (variances_exceeding_threshold report)
           (Schema.variances_exceeding_threshold resp))
  ∧ (∀ report db',
       get_variance_analysis iteration_order threshold (get_db_session st)
       = (Ok report, db') →
       Forall (fun v => exceeds_threshold v = true
                        ∧ ∃ c p, current_balance v = PyFloat c
                                 ∧ previous_balance v = PyFloat p)
         (variances_exceeding_threshold report)).
Proof.
  intros Hperm.
  assert (∀ report db',
     get_variance_analysis iteration_order threshold (get_db_session st)
     = (Ok report, db') →
     ∀ v, v ∈ variances_exceeding_threshold report →
          exceeds_threshold v = true
          ∧ ∃ c p, current_balance v = PyFloat c
                   ∧ previous_balance v = PyFloat p) as Hl.
  { intros report db' Hrun.
    apply get_variance_analysis_ok in Hrun as (emitted & Hrun & -> & _).
    apply (variance_results_of_inv _ Hperm) in Hrun as [_ ->]. cbn.
    intros v Hv. apply list_elem_of_filter in Hv as [Hex Hv]. split; [done|].
    apply list_elem_of_omap in Hv as (name & _ & Hrec).
    apply record_for_Some in Hrec as (c & p & _ & _ & _ & ->). cbn. eauto. }
  split.
  - intros resp. unfold varianceAnalysisTool.
    destruct (get_variance_analysis iteration_order threshold (get_db_session st))
      as [[report|e] db'] eqn:Hrun; [|done].
    pose proof (Hl report db' eq_refl) as Hrec.
    destruct (mapM_validate_ok (variances_exceeding_threshold report))
      as (items & Hm & HF).
    { intros v Hv. by apply Hrec. }
    unfold VarianceAnalysisResponse_new. rewrite Hm. cbn. intros [= <-].
    exists report, db'. split; [done|]. cbn.
    split; [done|]. split; [done|]. split.
    { apply get_variance_analysis_ok in Hrun as (? & _ & -> & _). done. }
    clear Hm. induction HF as [|v i l' items' Hv HF IH]; constructor.
    + destruct (Hrec v) as (Hex & c & p & Hc & Hp); [left|].
      unfold VarianceAnalysisItem_validate in Hv. rewrite Hc, Hp in Hv.
      injection Hv as <-. cbn. by rewrite Hc, Hp.
    + apply IH. intros v' Hv'. apply Hrec. by right.
  - intros report db' Hrun. apply Forall_forall. by apply (Hl report db').
Qed.

(** ** The transcription endpoint *)

(** X18: the endpoint answers 400 exactly when no file was sent, and then
    the service is not called; it answers with the transcription exactly
    when the file could be read and the service returned a text; every
    other failure is a 500 with one fixed detail, whatever was raised. *)
Theorem transcribe_audio_status client file :
  ((transcribe_audio client file).1 = HTTPException 400 no_file_detail ↔ file = None)
  ∧ (file = None → (transcribe_audio client file).2 = [])
  ∧ (∀ text, (transcribe_audio client file).1 = JSONResponse text ↔
       ∃ f content,
         file = Some f ∧ read f = Ok content
         ∧ client {| req_model := "whisper-large-v3";
                     req_file_name := audio_file_name f;
                     req_file := content;
                     req_response_format := "json" |} = Ok text)
  ∧ (∀ code detail, (transcribe_audio client file).1 = HTTPException code detail →
       (code = 400%nat ∧ detail = no_file_detail ∧ file = None)
       ∨ (code = 500%nat ∧ detail = transcription_error_detail ∧ file ≠ None)).
Proof.
  destruct file as [f|]; cbn.
  - destruct (read f) as [content|e] eqn:Hread; cbn.
    + destruct (client _) as [text|e] eqn:Hcall; cbn.
      * split; [done|]. split; [done|]. split; [|done].
        intros text'. split.
        -- intros [= <-]. exists f, content. done.
        -- intros (f' & content' & [= <-] & Hr & Hc).
           assert (content' = content) as -> by congruence. congruence.
      * split; [done|]. split; [done|]. split.
        -- intros text'. split; [done|].
           intros (f' & content' & [= <-] & Hr & Hc).
           assert (content' = content) as -> by congruence. congruence.
        -- intros code detail [= <- <-]. by right.
    + split; [done|]. split; [done|]. split.
      * intros text'. split; [done|]. intros (f' & content' & [= <-] & Hr & _). congruence.
      * intros code detail [= <- <-]. by right.
  - split; [done|]. split; [done|]. split.
    + intros text. split; [done|]. by intros (? & ? & ? & _).
    + intros code detail [= <- <-]. by left.
Qed.

(** X19: the endpoint calls the service at most once, only after the
    file has been read, with the fixed model and response format, the
    bytes read, and a file name that is never empty: the name of the
    upload, or audio.m4a when the upload has no name or an empty one. *)
Theorem transcribe_audio_requests client file :
  (length (transcribe_audio client file).2 ≤ 1)%nat
  ∧ ∀ request, request ∈ (transcribe_audio client file).2 →
      req_model request = "whisper-large-v3"
      ∧ req_response_format request = "json"
      ∧ req_file_name request ≠ ""
      ∧ ∃ f, file = Some f
             ∧ read f = Ok (req_file request)
             ∧ (∀ n, filename f = Some n → n ≠ "" → req_file_name request = n)
             ∧ (filename f = None ∨ filename f = Some "" →
                req_file_name request = "audio.m4a").
Proof.
  assert (∀ f, audio_file_name f ≠ ""
               ∧ (∀ n, filename f = Some n → n ≠ "" → audio_file_name f = n)
               ∧ (filename f = None ∨ filename f = Some "" →
                  audio_file_name f = "audio.m4a")) as Hname.
  { intros f. unfold audio_file_name. destruct (filename f) as [n|]; cbn.
    - destruct (String.eqb n "") eqn:Hn.
      + apply String.eqb_eq in Hn as ->. split; [done|].
        split; [by intros n' [= <-] Hne|done].
      + apply String.eqb_neq in Hn. split; [done|]. split.
        * by intros n' [= <-].
        * intros [|[= ->]]; done.
    - split; [done|]. split; done. }
  destruct file as [f|]; cbn; [|split; [lia|by intros ? ?%elem_of_nil]].
  destruct (read f) as [content|e] eqn:Hread; cbn;
    [|split; [lia|by intros ? ?%elem_of_nil]].
  assert (∀ request,
            request ∈ [{| req_model := "whisper-large-v3";
                          req_file_name := audio_file_name f;
                          req_file := content;
                          req_response_format := "json" |}] →
            req_model request = "whisper-large-v3"
            ∧ req_response_format request = "json"
            ∧ req_file_name request ≠ ""
            ∧ ∃ f', Some f = Some f'
                    ∧ read f' = Ok (req_file request)
                    ∧ (∀ n, filename f' = Some n → n ≠ "" → req_file_name request = n)
                    ∧ (filename f' = None ∨ filename f' = Some "" →
                       req_file_name request = "audio.m4a")) as Hreq.
  { intros request ->%list_elem_of_singleton. cbn.
    destruct (Hname f) as (H1 & H2 & H3).
    split; [done|]. split; [done|]. split; [done|]. exists f. done. }
  destruct (client _); cbn; (split; [lia|done]).
Qed.

(** ** Instances of the further properties *)

Lemma balance_valid : "balance" ∈ valid_columns.
Proof. by_decide. Defined.

Lemma reverse_order_perm (s : gset string) : reverse_order s ≡ₚ elements s.
Proof. apply reverse_Permutation. Defined.

Lemma get_total_reads_column_witness :
  get_total "current_year" "debit" (get_db_session ledger_store)
  = (Ok (of_Z 250),
     log (SelectSum TrailBalanceCurrentYear Col_debit) (get_db_session ledger_store)).
Proof.
  exact (proj1 (get_total_reads_column "current_year" (get_db_session ledger_store)
                  current_year_valid)).
Defined.

Lemma check_total_match_unknown_table_witness :
  check_total_match "foo" (get_db_session ledger_store)
  = (Raise (unknown_table_error "foo"), get_db_session ledger_store).
Proof.
  exact (proj1 (check_total_match_unknown_table "foo" (get_db_session ledger_store))
           foo_not_table).
Defined.

Lemma check_total_match_symmetric_witness :
  ∃ r r',
    (check_total_match "current_year" (get_db_session ledger_store)).1 = Ok r
    ∧ (check_total_match "current_year" (get_db_session (swap_totals ledger_store))).1
      = Ok r'
    ∧ debit_total r' = credit_total r
    ∧ credit_total r' = debit_total r
    ∧ is_balanced r' = is_balanced r.
Proof.
  exact (check_total_match_symmetric "current_year" ledger_store current_year_valid).
Defined.

Lemma even_match_run :
  (check_total_match "current_year" (get_db_session even_store)).1 = Ok even_match.
Proof. vm_compute. reflexivity. Defined.

Lemma check_total_match_equal_totals_witness : is_balanced even_match = true.
Proof.
  exact (proj1 (check_total_match_equal_totals "current_year" (get_db_session even_store)
                  even_match current_year_valid even_match_run)
           eq_refl eq_refl).
Defined.

Lemma check_total_match_agrees_with_get_total_witness :
  ∃ r d c,
    (check_total_match "current_year" (get_db_session ledger_store)).1 = Ok r
    ∧ (get_total "current_year" "debit" (get_db_session ledger_store)).1 = Ok d
    ∧ (get_total "current_year" "credit" (get_db_session ledger_store)).1 = Ok c
    ∧ (debit_total r = d ∨ (d = S754_zero true ∧ debit_total r = zero))
    ∧ (credit_total r = c ∨ (c = S754_zero true ∧ credit_total r = zero)).
Proof.
  exact (check_total_match_agrees_with_get_total "current_year"
           (get_db_session ledger_store) current_year_valid).
Defined.

Lemma A_not_after : "A" ∉ [("B", PyFloat (of_Z 3))].*1.
Proof. by_decide. Defined.

Lemma dict_of_rows_last_wins_witness :
  dict_of_rows [("A", PyFloat (of_Z 1)); ("A", PyFloat (of_Z 2)); ("B", PyFloat (of_Z 3))]
    !! "A" = Some (PyFloat (of_Z 2)).
Proof.
  exact (proj1 (dict_of_rows_last_wins [("A", PyFloat (of_Z 1))]
                  [("B", PyFloat (of_Z 3))] "A" (PyFloat (of_Z 2)) A_not_after)).
Defined.

Lemma variance_analysis_order_independent_witness :
  ∃ r2,
    get_variance_analysis reverse_order default_threshold (get_db_session example_store)
    = (Ok r2, analysis_log (get_db_session example_store))
    ∧ total_accounts r2 = total_accounts example_report
    ∧ variance_count r2 = variance_count example_report
    ∧ threshold_used r2 = threshold_used example_report
    ∧ variances_exceeding_threshold r2 ≡ₚ variances_exceeding_threshold example_report.
Proof.
  exact (proj2 (variance_analysis_order_independent elements reverse_order
                  default_threshold (get_db_session example_store)
                  elements_perm reverse_order_perm)
           example_report _ example_report_run).
Defined.

Lemma variance_records_distinct_names_witness :
  NoDup (account_name <$> variances_exceeding_threshold example_report).
Proof.
  exact (variance_records_distinct_names elements default_threshold
           (get_db_session example_store) example_report _
           elements_perm example_report_run).
Defined.

Lemma steady_store_finite :
  snapshot_finite (current_snapshot (store (get_db_session steady_store))).
Proof. by_decide. Defined.

Lemma identical_periods_no_variance_witness :
  variance_results_of elements (current_snapshot steady_store)
    (previous_snapshot steady_store) default_threshold = Ok [].
Proof.
  exact (proj1 (identical_periods_no_variance elements default_threshold
                  (get_db_session steady_store) elements_perm eq_refl
                  steady_store_finite)).
Defined.

Lemma turnover_emitted_run :
  variance_results_of elements (current_snapshot turnover_store)
    (previous_snapshot turnover_store) default_threshold = Ok turnover_emitted.
Proof. vm_compute. reflexivity. Defined.

Lemma turnover_N_in_union :
  "N" ∈ all_account_names (current_snapshot turnover_store)
          (previous_snapshot turnover_store).
Proof. by_decide. Defined.

Lemma new_and_dropped_accounts_witness :
  ∃ r, r ∈ turnover_emitted
       ∧ account_name r = "N"
       ∧ variance_percentage r = c100
       ∧ variance_amount r = sub (of_Z 40) zero
       ∧ exceeds_threshold r = geb c100 default_threshold.
Proof.
  exact (new_and_dropped_accounts elements (current_snapshot turnover_store)
           (previous_snapshot turnover_store) default_threshold turnover_emitted
           elements_perm turnover_emitted_run "N" (of_Z 40) zero
           turnover_N_in_union eq_refl eq_refl (or_intror (conj eq_refl eq_refl))).
Defined.

Lemma example_B_emitted : example_B ∈ example_emitted.
Proof. apply list_elem_of_further, list_elem_of_here. Defined.

Lemma emitted_percentage_positive_witness :
  (is_nan (variance_percentage example_B) = true
   ∨ ltb zero (variance_percentage example_B) = true)
  ∧ (snapshot_finite example_current → snapshot_finite example_previous →
     ltb zero (variance_percentage example_B) = true).
Proof.
  exact (emitted_percentage_positive elements example_current example_previous
           default_threshold example_emitted elements_perm example_emitted_run
           example_B example_B_emitted).
Defined.

Lemma null_A_in_union :
  "A" ∈ all_account_names (current_snapshot null_store) (previous_snapshot null_store).
Proof. by_decide. Defined.

Lemma null_A_no_balance :
  ¬ has_balances (current_snapshot null_store) (previous_snapshot null_store) "A".
Proof. by_decide. Defined.

Lemma variance_analysis_raises_on_null_witness :
  variance_results_of elements (current_snapshot null_store)
    (previous_snapshot null_store) default_threshold = Raise TypeError
  ∧ executed (analysis_log (get_db_session example_store))
    = [SelectDistinct TrailBalanceCurrentYear [Col_account_name; Col_balance];
       SelectDistinct TrailBalancePreviousYear [Col_account_name; Col_balance]].
Proof.
  split.
  - exact (proj2 (proj1 (variance_analysis_raises_on_null elements
                           (current_snapshot null_store) (previous_snapshot null_store)
                           default_threshold (get_db_session null_store) elements_perm))
             (ex_intro _ "A" (conj null_A_in_union null_A_no_balance))).
  - destruct (proj2 (proj2 (variance_analysis_raises_on_null elements
                              (current_snapshot example_store)
                              (previous_snapshot example_store)
                              default_threshold (get_db_session example_store)
                              elements_perm))
                example_report _ example_report_run) as (_ & Hlog & _).
    exact Hlog.
Defined.

Lemma empty_report_run :
  get_variance_analysis elements default_threshold (get_db_session empty_store)
  = (Ok empty_report, analysis_log (get_db_session empty_store)).
Proof. vm_compute. reflexivity. Defined.

Lemma variance_analysis_empty_tables_witness :
  (total_accounts empty_report = 0%nat
   ↔ distinct_name_balance empty_store TrailBalanceCurrentYear = []
     ∧ distinct_name_balance empty_store TrailBalancePreviousYear = [])
  ∧ (total_accounts empty_report = 0%nat →
     variance_count empty_report = 0%nat
     ∧ variances_exceeding_threshold empty_report = []).
Proof.
  exact (variance_analysis_empty_tables elements default_threshold
           (get_db_session empty_store) empty_report _ elements_perm empty_report_run).
Defined.

Lemma steady_names_run :
  accountNameTool steady_store "current_year" = Ok steady_names_response.
Proof. vm_compute. reflexivity. Defined.

Lemma listing_tools_outcome_witness :
  get_account_names "foo" (get_db_session steady_store)
  = (Raise (unknown_table_error "foo"), get_db_session steady_store)
  ∧ Schema.account_names steady_names_response
    = distinct_names steady_store TrailBalanceCurrentYear
  ∧ Schema.names_table_name steady_names_response = "current_year".
Proof.
  split.
  - exact (proj1 (proj1 (listing_tools_outcome steady_store (get_db_session steady_store)
                           "foo")
                    foo_not_table)).
  - destruct (proj1 (proj2 (proj2 (proj2
                (listing_tools_outcome steady_store (get_db_session steady_store)
                   "current_year"))))
                steady_names_response steady_names_run) as (_ & Hnames & Hecho).
    exact (conj Hnames Hecho).
Defined.





Lemma example_response_run :
  varianceAnalysisTool elements example_store default_threshold = Ok example_response.
Proof. vm_compute. reflexivity. Defined.

Lemma varianceAnalysisTool_outcome_witness :
  ∃ report db',
    get_variance_analysis elements default_threshold (get_db_session example_store)
    = (Ok report, db')
    ∧ Schema.total_accounts example_response = total_accounts report
    ∧ Schema.variance_count example_response = variance_count report.
Proof.
  destruct (proj1 (varianceAnalysisTool_outcome elements example_store default_threshold
                     elements_perm)
              example_response example_response_run)
    as (report & db' & Hrun & Htotal & Hcount & _).
  exact (ex_intro _ report (ex_intro _ db' (conj Hrun (conj Htotal Hcount)))).
Defined.

Lemma transcribe_audio_status_witness :
  (transcribe_audio echo_client (Some unnamed_upload)).1 = JSONResponse "audio.m4a"
  ∧ (transcribe_audio echo_client None).1 = HTTPException 400 no_file_detail.
Proof.
  split.
  - exact (proj2 (proj1 (proj2 (proj2
             (transcribe_audio_status echo_client (Some unnamed_upload))))
             "audio.m4a")
             (ex_intro _ unnamed_upload
                (ex_intro _ [Byte.x01; Byte.x02] (conj eq_refl (conj eq_refl eq_refl))))).
  - exact (proj2 (proj1 (transcribe_audio_status echo_client None)) eq_refl).
Defined.

Lemma unnamed_request_sent :
  {| req_model := "whisper-large-v3"; req_file_name := "audio.m4a";
     req_file := [Byte.x01; Byte.x02]; req_response_format := "json" |}
  ∈ (transcribe_audio echo_client (Some unnamed_upload)).2.
Proof. apply list_elem_of_here. Defined.

Lemma transcribe_audio_requests_witness :
  (length (transcribe_audio echo_client (Some unnamed_upload)).2 ≤ 1)%nat
  ∧ ∃ f, Some unnamed_upload = Some f
         ∧ read f = Ok [Byte.x01; Byte.x02]
         ∧ (∀ n, filename f = Some n → n ≠ "" → "audio.m4a" = n)
         ∧ (filename f = None ∨ filename f = Some "" → "audio.m4a" = "audio.m4a").
Proof.
  split.
  - exact (proj1 (transcribe_audio_requests echo_client (Some unnamed_upload))).
  - exact (proj2 (proj2 (proj2
             (proj2 (transcribe_audio_requests echo_client (Some unnamed_upload))
                _ unnamed_request_sent)))).
Defined.

(** ** Raising the threshold *)

Module OrderFacts.

(** The comparison of two positive finite numbers, by exponent and then
    by mantissa. *)
Lemma magnitude_le_iff e1 (m1 : positive) e2 (m2 : positive) :
  match (match Z.compare e1 e2 with
         | Lt => Lt
         | Gt => Gt
         | Eq => Pos.compare_cont Eq m1 m2
         end) with
  | Lt | Eq => True
  | Gt => False
  end ↔ (e1 < e2 ∨ (e1 = e2 ∧ (m1 ≤ m2)%positive)).
Proof.
  change (Pos.compare_cont Eq m1 m2) with (Pos.compare m1 m2).
  destruct (Z.compare_spec e1 e2) as [He|He|He];
    [destruct (Pos.compare_spec m1 m2) as [Hm|Hm|Hm]| |]; split; try done; try lia.
  all: intros _; auto; right; split; lia.
Qed.

Lemma magnitude_ge_iff e1 (m1 : positive) e2 (m2 : positive) :
  match (match Z.compare e1 e2 with
         | Lt => Gt
         | Gt => Lt
         | Eq => CompOpp (Pos.compare_cont Eq m1 m2)
         end) with
  | Lt | Eq => True
  | Gt => False
  end ↔ (e2 < e1 ∨ (e1 = e2 ∧ (m2 ≤ m1)%positive)).
Proof.
  change (Pos.compare_cont Eq m1 m2) with (Pos.compare m1 m2).
  destruct (Z.compare_spec e1 e2) as [He|He|He];
    [destruct (Pos.compare_spec m1 m2) as [Hm|Hm|Hm]| |]; split; cbn; try done; try lia.
  all: intros _; auto; right; split; lia.
Qed.

Lemma leb_finite_iff s1 m1 e1 s2 m2 e2 :
  leb (S754_finite s1 m1 e1) (S754_finite s2 m2 e2) = true ↔
  match s1, s2 with
  | true, false => True
  | false, true => False
  | false, false => e1 < e2 ∨ (e1 = e2 ∧ (m1 ≤ m2)%positive)
  | true, true => e2 < e1 ∨ (e1 = e2 ∧ (m2 ≤ m1)%positive)
  end.
Proof.
  unfold leb, SFleb, SFcompare. destruct s1, s2; try done.
  - rewrite <- magnitude_ge_iff. by destruct (e1 ?= e2); [destruct (CompOpp _)| |].
  - rewrite <- magnitude_le_iff. by destruct (e1 ?= e2); [destruct (Pos.compare_cont _ _ _)| |].
Qed.

(** [<=] on doubles is transitive. *)
Lemma leb_trans x y z : leb x y = true → leb y z = true → leb x z = true.
Proof.
  destruct x as [sx|sx| |sx mx ex], y as [sy|sy| |sy my ey], z as [sz|sz| |sz mz ez];
    try done; try (by destruct sx, sy, sz).
  rewrite !leb_finite_iff. destruct sx, sy, sz; try done; lia.
Qed.

End OrderFacts.

Lemma flagged_sublist cur prev t1 t2 (l : list string) :
  leb t1 t2 = true →
  filter (fun v => exceeds_threshold v = true) (omap (record_for cur prev t2) l)
  `sublist_of`
  filter (fun v => exceeds_threshold v = true) (omap (record_for cur prev t1) l).
Proof.
  intros Ht. induction l as [|x l IH]; cbn; [constructor|].
  set (tl1 := omap (record_for cur prev t1) l) in *.
  set (tl2 := omap (record_for cur prev t2) l) in *.
  unfold record_for.
  destruct (dict_get cur x) as [|c]; [done|].
  destruct (dict_get prev x) as [|p]; [done|]. cbv beta iota zeta.
  destruct (neb (stated_percentage c p) zero); [|done].
  destruct (geb (stated_percentage c p) t2) eqn:H2,
           (geb (stated_percentage c p) t1) eqn:H1.
  - rewrite !filter_cons_True by done. by constructor.
  - assert (geb (stated_percentage c p) t1 = true) as H
      by apply (OrderFacts.leb_trans _ _ _ Ht H2).
    congruence.
  - rewrite filter_cons_False by (cbn; congruence).
    rewrite filter_cons_True by done. by constructor.
  - rewrite !filter_cons_False by (cbn; congruence). done.
Qed.

Lemma flagged_nan_threshold cur prev (l : list string) :
  filter (fun v => exceeds_threshold v = true) (omap (record_for cur prev S754_nan) l)
  = [].
Proof.
  induction l as [|x l IH]; cbn; [done|].
  set (tl := omap (record_for cur prev S754_nan) l) in *.
  unfold record_for.
  destruct (dict_get cur x) as [|c]; [done|].
  destruct (dict_get prev x) as [|p]; [done|]. cbv beta iota zeta.
  destruct (neb (stated_percentage c p) zero); [|done].
  rewrite filter_cons_False; [done|]. cbn.
  by destruct (stated_percentage c p).
Qed.

(** X20: raising the threshold can only remove records from the report:
    for [t1 <= t2], the analysis with [t2] returns whenever the one with
    [t1] does, its flagged records are a sublist of those for [t1], and
    its [variance_count] is not larger; [total_accounts] is the same. *)
Theorem threshold_monotone
    (iteration_order : gset string → list string) t1 t2 db r1 db1 :
  (∀ s, iteration_order s ≡ₚ elements s) →
  leb t1 t2 = true →
  get_variance_analysis iteration_order t1 db = (Ok r1, db1) →
  ∃ r2,
    get_variance_analysis iteration_order t2 db = (Ok r2, db1)
    ∧ variances_exceeding_threshold r2 `sublist_of` variances_exceeding_threshold r1
    ∧ (variance_count r2 ≤ variance_count r1)%nat
    ∧ total_accounts r2 = total_accounts r1.
Proof.
  intros Hperm Ht Hrun.
  apply get_variance_analysis_ok in Hrun as (emitted & Hrun & -> & ->).
  apply (variance_results_of_inv _ Hperm) in Hrun as [Hbal ->].
  rewrite get_variance_analysis_run.
  rewrite (variance_results_of_ok _ Hperm) by done. cbn.
  eexists. split; [reflexivity|]. cbn.
  pose proof (flagged_sublist (current_snapshot (store db)) (previous_snapshot (store db))
                t1 t2
                (iteration_order (all_account_names (current_snapshot (store db))
                                    (previous_snapshot (store db)))) Ht) as Hsub.
  split; [done|]. split; [|done]. by apply sublist_length.
Qed.

(** X21: a NaN threshold flags nothing: the report has no record and
    [variance_count] is 0, whatever the balances are. *)
Theorem nan_threshold_flags_nothing
    (iteration_order : gset string → list string) db report db' :
  (∀ s, iteration_order s ≡ₚ elements s) →
  get_variance_analysis iteration_order S754_nan db = (Ok report, db') →
  variances_exceeding_threshold report = [] ∧ variance_count report = 0%nat.
Proof.
  intros Hperm Hrun.
  apply get_variance_analysis_ok in Hrun as (emitted & Hrun & -> & _).
  apply (variance_results_of_inv _ Hperm) in Hrun as [_ ->]. cbn.
  by rewrite flagged_nan_threshold.
Qed.

Lemma default_below_negative : leb negative_threshold default_threshold = true.
Proof. reflexivity. Defined.

Lemma threshold_monotone_witness :
  ∃ r2,
    get_variance_analysis elements default_threshold (get_db_session example_store)
    = (Ok r2, analysis_log (get_db_session example_store))
    ∧ variances_exceeding_threshold r2
      `sublist_of` variances_exceeding_threshold example_report_negative
    ∧ (variance_count r2 ≤ variance_count example_report_negative)%nat
    ∧ total_accounts r2 = total_accounts example_report_negative.
Proof.
  exact (threshold_monotone elements negative_threshold default_threshold
           (get_db_session example_store) example_report_negative _
           elements_perm default_below_negative example_report_negative_run).
Defined.

Lemma example_report_nan_run :
  get_variance_analysis elements S754_nan (get_db_session example_store)
  = (Ok {| total_accounts := 3; variance_count := 0;
           threshold_used := S754_nan; variances_exceeding_threshold := [] |},
     analysis_log (get_db_session example_store)).
Proof. vm_compute. reflexivity. Defined.

Lemma nan_threshold_flags_nothing_witness :
  variances_exceeding_threshold
    {| total_accounts := 3; variance_count := 0;
       threshold_used := S754_nan; variances_exceeding_threshold := [] |} = []
  ∧ variance_count
      {| total_accounts := 3; variance_count := 0;
         threshold_used := S754_nan; variances_exceeding_threshold := [] |} = 0%nat.
Proof.
  exact (nan_threshold_flags_nothing elements (get_db_session example_store) _ _
           elements_perm example_report_nan_run).
Defined.
